(** * gotomarkdown: conversion of commented Go files to Markdown

    A shallow embedding of [gotomarkdown.go] (the line classifier, the tag
    extractors, the Hype snippet loader and [convert]) together with the
    parts of Go's [strings] and [regexp] packages that the program calls.

    Go strings are byte sequences; they are modelled by [string], whose
    characters are the 8-bit [ascii].  Go's [regexp] works on UTF-8 runes,
    but every pattern of the program only names ASCII characters, and the
    program only looks at whether a pattern matched, at the text of capture
    group 1 and at the result of a replacement; for these a byte-wise
    matcher gives the same answers. *)

From Stdlib Require Import Ascii String List ZArith Lia Bool.
From stdpp Require Import base gmap strings.

Import ListNotations.
Local Open Scope list_scope.

(* ===================================================================== *)
(** * Characters used by the program *)

Definition TAB : ascii := "009"%char.
Definition LF  : ascii := "010"%char.
Definition FF  : ascii := "012"%char.
Definition CR  : ascii := "013"%char.
Definition SP  : ascii := " "%char.
Definition DQUOTE : ascii := "034"%char.
Definition BACKTICK : ascii := "096"%char.

(* ===================================================================== *)
(** * Go's [strings] package (the functions the program calls) *)

Module GoStrings.

Definition memb (c : ascii) (cs : list ascii) : bool :=
  existsb (Ascii.eqb c) cs.

(** [strings.HasPrefix] *)
Fixpoint HasPrefix (s pre : string) : bool :=
  match pre, s with
  | EmptyString, _ => true
  | String p pre', String c s' => Ascii.eqb c p && HasPrefix s' pre'
  | String _ _, EmptyString => false
  end.

Fixpoint drop (n : nat) (s : string) : string :=
  match n, s with
  | O, _ => s
  | S k, String _ t => drop k t
  | S _, EmptyString => EmptyString
  end.

Fixpoint take (n : nat) (s : string) : string :=
  match n, s with
  | S k, String c t => String c (take k t)
  | _, _ => EmptyString
  end.

(** the Go slice expression [s[i:j]] *)
Definition slice (s : string) (i j : nat) : string := take (j - i) (drop i s).

(** [strings.Index(s, sub)]: the byte offset of the first occurrence of
    [sub] in [s], or -1. *)
Fixpoint Index_from (i : Z) (s sub : string) : Z :=
  if HasPrefix s sub then i
  else match s with
       | EmptyString => (-1)%Z
       | String _ t => Index_from (i + 1)%Z t sub
       end.

Definition Index (s sub : string) : Z := Index_from 0%Z s sub.

(** [strings.Replace(s, old, new, -1)] (the same as [strings.ReplaceAll])
    for a non-empty [old]: every non-overlapping occurrence of [old], from
    the left, becomes [new].  [skip] counts the bytes of an occurrence that
    are still to be passed. *)
Fixpoint Replace_go (old new : string) (skip : nat) (s : string) : string :=
  match s with
  | EmptyString => EmptyString
  | String c t =>
      match skip with
      | S k => Replace_go old new k t
      | O => if HasPrefix s old
             then new +:+ Replace_go old new (String.length old - 1) t
             else String c (Replace_go old new 0 t)
      end
  end.

Definition ReplaceAll (s old new : string) : string := Replace_go old new 0 s.

(** [strings.Split(s, sep)] for a one-byte separator: the pieces between
    the separators, one more than there are separators. *)
Fixpoint Split (s : string) (sep : ascii) : list string :=
  match s with
  | EmptyString => [EmptyString]
  | String c t =>
      if Ascii.eqb c sep then EmptyString :: Split t sep
      else match Split t sep with
           | piece :: pieces => String c piece :: pieces
           | [] => [String c EmptyString]
           end
  end.

(** [strings.TrimLeft], [strings.TrimRight] and [strings.Trim] with a
    cutset of one-byte characters. *)
Fixpoint TrimLeft (s : string) (cutset : list ascii) : string :=
  match s with
  | EmptyString => EmptyString
  | String c t => if memb c cutset then TrimLeft t cutset else s
  end.

Fixpoint TrimRight (s : string) (cutset : list ascii) : string :=
  match s with
  | EmptyString => EmptyString
  | String c t =>
      match TrimRight t cutset with
      | EmptyString => if memb c cutset then EmptyString else String c EmptyString
      | t' => String c t'
      end
  end.

Definition Trim (s : string) (cutset : list ascii) : string :=
  TrimRight (TrimLeft s cutset) cutset.

(** [strings.ContainsAny]: some byte of [s] is one of [chars]. *)
Fixpoint ContainsAny (s : string) (chars : list ascii) : bool :=
  match s with
  | EmptyString => false
  | String c t => memb c chars || ContainsAny t chars
  end.

(** [strings.Contains]: [sub] occurs in [s]. *)
Fixpoint Contains (s sub : string) : bool :=
  HasPrefix s sub
  || match s with
     | EmptyString => false
     | String _ t => Contains t sub
     end.

(** The concatenation of a list of strings ([strings.Join(l, "")]). *)
Definition concat (l : list string) : string := fold_right String.append "" l.

End GoStrings.

(* ===================================================================== *)
(** * Go's [regexp] package: a backtracking matcher

    Go documents its (non-POSIX) matching as leftmost-first: the match
    starts as early as possible and, among the matches starting there, is
    the one a backtracking engine finds first.  [exec] lists the ways a
    pattern can match at a cursor in that order of preference (greedy
    repetition first, alternatives from left to right), so the head of the
    list is the match Go reports. *)

Module Regexp.

(** A character class: [[abc]] or [[^abc]]. *)
Inductive cclass : Type :=
| OneOf  (cs : list ascii)
| NoneOf (cs : list ascii).

Definition in_class (k : cclass) (c : ascii) : bool :=
  match k with
  | OneOf cs => GoStrings.memb c cs
  | NoneOf cs => negb (GoStrings.memb c cs)
  end.

Inductive regex : Type :=
| Bol                              (* ^  : beginning of text *)
| Eol                              (* $  : end of text *)
| Cls (k : cclass)                 (* one character of a class *)
| Lit (s : string)                 (* a literal string *)
| Seq (a b : regex)                (* ab *)
| Alt (a b : regex)                (* a|b *)
| Star (a : regex)                 (* a*, greedy *)
| Plus (a : regex)                 (* a+, greedy *)
| Opt (a : regex)                  (* a?, greedy *)
| Cap (n : nat) (a : regex).       (* capture group number n *)

(** A position in the text: [pos] bytes are behind the cursor, [rest] is
    the text in front of it, [caps] the groups captured so far (latest
    first). *)
Record cursor : Type := Cursor {
  pos  : nat;
  rest : string;
  caps : list (nat * string)
}.

Definition advance (n : nat) (x : cursor) : cursor :=
  Cursor (pos x + n) (GoStrings.drop n (rest x)) (caps x).

(** Greedy iteration of [step]; an iteration that consumes nothing is
    not repeated.  [fuel] bounds the number of iterations by the length
    of the text in front of the cursor. *)
Fixpoint iterate (step : cursor -> list cursor) (fuel : nat) (x : cursor)
  : list cursor :=
  match fuel with
  | O => [x]
  | S f =>
      flat_map (fun y => if (pos x <? pos y)%nat then iterate step f y else [])
               (step x) ++ [x]
  end.

Fixpoint exec (r : regex) (x : cursor) : list cursor :=
  match r with
  | Bol => if (pos x =? 0)%nat then [x] else []
  | Eol => match rest x with EmptyString => [x] | _ => [] end
  | Cls k =>
      match rest x with
      | String c _ => if in_class k c then [advance 1 x] else []
      | EmptyString => []
      end
  | Lit s =>
      if GoStrings.HasPrefix (rest x) s then [advance (String.length s) x] else []
  | Seq a b => flat_map (exec b) (exec a x)
  | Alt a b => exec a x ++ exec b x
  | Star a => iterate (exec a) (String.length (rest x)) x
  | Plus a =>
      flat_map (fun y => iterate (exec a) (String.length (rest y)) y) (exec a x)
  | Opt a => exec a x ++ [x]
  | Cap n a =>
      map (fun y => Cursor (pos y) (rest y)
                      ((n, GoStrings.take (pos y - pos x) (rest x)) :: caps y))
          (exec a x)
  end.

(** Number of capture groups ([Regexp.NumSubexp]). *)
Fixpoint NumSubexp (r : regex) : nat :=
  match r with
  | Bol | Eol | Cls _ | Lit _ => 0
  | Seq a b | Alt a b => Nat.max (NumSubexp a) (NumSubexp b)
  | Star a | Plus a | Opt a => NumSubexp a
  | Cap n a => Nat.max n (NumSubexp a)
  end.

(** Leftmost match at or after the cursor position [p], where [s] is the
    text from [p] on: the start offset and the cursor at the end. *)
Fixpoint search (r : regex) (p : nat) (s : string) : option (nat * cursor) :=
  match exec r (Cursor p s []) with
  | y :: _ => Some (p, y)
  | [] =>
      match s with
      | EmptyString => None
      | String _ t => search r (S p) t
      end
  end.

Fixpoint lookup_cap (n : nat) (cs : list (nat * string)) : string :=
  match cs with
  | [] => EmptyString
  | (m, v) :: cs' => if (n =? m)%nat then v else lookup_cap n cs'
  end.

(** [Regexp.FindString]: the text of the leftmost match, or the empty
    string when there is none. *)
Definition FindString (r : regex) (s : string) : string :=
  match search r 0 s with
  | Some (a0, y) => GoStrings.slice s a0 (pos y)
  | None => EmptyString
  end.

(** [Regexp.FindStringSubmatch]: the text of the leftmost match followed
    by the text of every capture group (empty for a group that took no
    part in the match); the empty list ([nil]) when there is no match. *)
Definition FindStringSubmatch (r : regex) (s : string) : list string :=
  match search r 0 s with
  | Some (a0, y) =>
      GoStrings.slice s a0 (pos y)
        :: map (fun n => lookup_cap n (caps y)) (seq 1 (NumSubexp r))
  | None => []
  end.

(** [Regexp.ReplaceAllString] as the loop of the library's [replaceAll],
    with a replacement text free of [$]: [searchPos] is where the next
    match is looked for, [lastMatchEnd] the end of the latest match,
    [buf] the output so far.  Every round moves [searchPos] forward, so
    [fuel] = length + 1 rounds are enough. *)
Fixpoint replaceAll (r : regex) (src repl : string) (fuel : nat)
         (searchPos lastMatchEnd : nat) (buf : string) : string :=
  match fuel with
  | O => buf +:+ GoStrings.drop lastMatchEnd src
  | S f =>
      if (searchPos <=? String.length src)%nat then
        match search r searchPos (GoStrings.drop searchPos src) with
        | None => buf +:+ GoStrings.drop lastMatchEnd src
        | Some (a0, y) =>
            let a1 := pos y in
            let buf1 := buf +:+ GoStrings.slice src lastMatchEnd a0 in
            let buf2 := if ((lastMatchEnd <? a1) || (a0 =? 0))%nat
                        then buf1 +:+ repl else buf1 in
            let width := if (searchPos <? String.length src)%nat then 1 else 0 in
            let searchPos' :=
              if (a1 <? searchPos + width)%nat then searchPos + width
              else if (a1 <? searchPos + 1)%nat then searchPos + 1
              else a1 in
            replaceAll r src repl f searchPos' a1 buf2
        end
      else buf +:+ GoStrings.drop lastMatchEnd src
  end.

Definition ReplaceAllString (r : regex) (src repl : string) : string :=
  replaceAll r src repl (S (String.length src)) 0 0 EmptyString.

End Regexp.

Import Regexp.

(* ===================================================================== *)
(** * Imports and Globals: the patterns *)

(** [\s] in Go's syntax is [[\t\n\f\r ]]. *)
Definition wsChars : list ascii := [TAB; LF; FF; CR; SP].
Definition ws : regex := Cls (OneOf wsChars).

(** [^\s*//\s?] *)
Definition commentPtrn : regex :=
  Seq Bol (Seq (Star ws) (Seq (Lit "//") (Opt ws))).

(** [^\s*/\*\s?] *)
Definition commentStartPtrn : regex :=
  Seq Bol (Seq (Star ws) (Seq (Lit "/*") (Opt ws))).

(** [\s?\*/\s*$] *)
Definition commentEndPtrn : regex :=
  Seq (Opt ws) (Seq (Lit "*/") (Seq (Star ws) Eol)).

(** [^//go:] *)
Definition directivePtrn : regex := Seq Bol (Lit "//go:").

(** [[^\x60]!\[[^\]]+\]\( *([^"\)]+) *["\)]] *)
Definition imagePtrn : regex :=
  Seq (Cls (NoneOf [BACKTICK]))
 (Seq (Lit "![")
 (Seq (Plus (Cls (NoneOf ["]"%char])))
 (Seq (Lit "](")
 (Seq (Star (Lit " "))
 (Seq (Cap 1 (Plus (Cls (NoneOf [DQUOTE; ")"%char]))))
 (Seq (Star (Lit " "))
      (Cls (OneOf [DQUOTE; ")"%char])))))))).

(** [[^\x60]HYPE\[[^\]]+\]\( *([^\)]+) *\)] *)
Definition hypePtrn : regex :=
  Seq (Cls (NoneOf [BACKTICK]))
 (Seq (Lit "HYPE[")
 (Seq (Plus (Cls (NoneOf ["]"%char])))
 (Seq (Lit "](")
 (Seq (Star (Lit " "))
 (Seq (Cap 1 (Plus (Cls (NoneOf [")"%char]))))
 (Seq (Star (Lit " "))
      (Lit ")"))))))).

(** The compiled patterns ([regexp.MustCompile]). *)
Definition comment : regex := commentPtrn.
Definition commentStart : regex := commentStartPtrn.
Definition commentEnd : regex := commentEndPtrn.
Definition directive : regex := directivePtrn.
Definition imageTag : regex := imagePtrn.
Definition hypeTag : regex := hypePtrn.
(** [commentPtrn + "|" + commentStartPtrn + "|" + commentEndPtrn] *)
Definition allCommentDelims : regex :=
  Alt commentPtrn (Alt commentStartPtrn commentEndPtrn).

(* ===================================================================== *)
(** * Results, errors and the classifier's state *)

(** A Go result pair [(value, err)]: either a value with [err == nil], or
    an error with its message. *)
Inductive result (A : Type) : Type :=
| Ok (a : A)
| Err (msg : string).
Arguments Ok {A} a.
Arguments Err {A} msg.

(** [isInComment] is a package-level closure over the variable
    [commentSectionInProgress]; code that calls it reads and writes that
    variable.  [M A] is such code: from the value of the variable before to
    a result and the value after. *)
Definition M (A : Type) : Type := bool -> result A * bool.

Definition ret {A} (a : A) : M A := fun g => (Ok a, g).
Definition fail {A} (msg : string) : M A := fun g => (Err msg, g).
Definition bind {A B} (c : M A) (k : A -> M B) : M B :=
  fun g => match c g with
           | (Ok a, g') => k a g'
           | (Err msg, g') => (Err msg, g')
           end.

Notation "'let*' x ':=' c1 'in' c2" := (bind c1 (fun x => c2))
  (at level 10, x name, c1 at level 100, c2 at level 200).

(** "\n" *)
Definition NL : string := String LF "".

Definition nonempty (s : string) : bool := negb (String.eqb s "").

(* ===================================================================== *)
(** * First, some helper functions *)

(** The value [commentFinder] gives [commentSectionInProgress] when it
    creates the closure; [isInComment] is created once, when the program
    starts. *)
Definition commentFinder : bool := false.

(** The closure returned by [commentFinder], bound to [isInComment]. *)
Definition isInComment (line : string) : M bool :=
  fun commentSectionInProgress =>
    if nonempty (FindString comment line) then
      (Ok true, commentSectionInProgress)
    else if nonempty (FindString commentStart line) then
      (Ok true, true)
    else if nonempty (FindString commentEnd line) then
      (Ok true, false)
    else if commentSectionInProgress then
      (Ok true, commentSectionInProgress)
    else
      (Ok false, commentSectionInProgress).

Definition isDirective (line : string) : bool :=
  if nonempty (FindString directive line) then true else false.

Definition extractMediaPath (line : string) : result string :=
  let matches := FindStringSubmatch imageTag line in
  if (length matches =? 0)%nat then Ok ""
  else if (length matches =? 1)%nat then
    Err ("Error: Found image tag but no valid path, in line:" +:+ NL +:+ line)
  else Ok (GoStrings.Trim (nth 1 matches "") [SP; TAB]).

Definition startMarker : string := "<!-- copy these lines to your document: -->".
Definition endMarker : string := "<!-- end copy -->".

(** The loop of [getHTMLSnippet] over the lines that are left, with the
    loop's two variables; [continue] goes on with the next line, [break]
    returns what has been accumulated. *)
Fixpoint snippetLoop (lines : list string) (inSnippet : bool) (out : string)
  : string :=
  match lines with
  | [] => out
  | line :: lines' =>
      if (0 <=? GoStrings.Index line startMarker)%Z then
        snippetLoop lines' true out
      else
        if ((0 <=? GoStrings.Index line endMarker)%Z && inSnippet)%bool then
          out
        else
          let inSnippet1 :=
            if (0 <=? GoStrings.Index line endMarker)%Z then false else inSnippet in
          let out1 :=
            if inSnippet1 then out +:+ GoStrings.Trim line [TAB; TAB] +:+ NL
            else out in
          snippetLoop lines' inSnippet1 out1
  end.

(** [getHTMLSnippet] on the content of the file. *)
Definition snippetOf (hypeHTML : string) : string :=
  let lines := GoStrings.ReplaceAll hypeHTML (String CR "") "" in
  snippetLoop (GoStrings.Split lines LF) false "" +:+ NL.

Module LastLine.
(** The constants [neither], [comment], [code] of [convert]. *)
Inductive t : Type := neither | comment | code.
Definition eqb (a b : t) : bool :=
  match a, b with
  | neither, neither | comment, comment | code, code => true
  | _, _ => false
  end.
End LastLine.

(** The variables of [convert]'s loop. *)
Record locals : Type := Locals {
  lastLine : LastLine.t;
  out : string;
  media : gset string
}.

Section Converter.

(** [ioutil.ReadFile]: the content of the file at a path, or the error's
    message. *)
Variable ReadFile : string -> result string.

Definition getHTMLSnippet (path : string) : result string :=
  match ReadFile path with
  | Err e => Err ("Unable to open Hype file " +:+ path +:+ NL +:+ e)
  | Ok hypeHTML => Ok (snippetOf hypeHTML)
  end.

(** The result is [(out, path)]. *)
Definition replaceHypeTag (line : string) : result (string * string) :=
  let matches := FindStringSubmatch hypeTag line in
  if (length matches =? 0)%nat then Ok (line, "")
  else if (length matches =? 1)%nat then
    Err ("Error: Found Hype tag but no valid path, in line:" +:+ NL +:+ line)
  else
    let path := nth 1 matches "" in
    match getHTMLSnippet path with
    | Err e => Err e
    | Ok out =>
        Ok (out, GoStrings.ReplaceAll path ".html" ".hyperesources")
    end.

(** The comment branch of [convert]'s loop. *)
Definition commentLine (l : locals) (line : string) : M locals :=
  let out1 :=
    if LastLine.eqb (lastLine l) LastLine.code
    then out l +:+ "```" +:+ NL +:+ NL else out l in
  match extractMediaPath line with
  | Err e =>
      fail ("Unable to extract media path from line " +:+ line +:+ NL +:+ e)
  | Ok path =>
      let media1 := if nonempty path then {[path]} ∪ media l else media l in
      match replaceHypeTag line with
      | Err e =>
          fail ("Failed generating Hype tag from line " +:+ line +:+ NL +:+ e)
      | Ok (repl, path) =>
          if (nonempty repl && nonempty path)%bool then
            ret (Locals LastLine.comment (out1 +:+ repl) ({[path]} ∪ media1))
          else
            ret (Locals LastLine.comment
                   (out1 +:+ ReplaceAllString allCommentDelims line "" +:+ NL)
                   media1)
      end
  end.

(** The code branch of [convert]'s loop. *)
Definition codeLine (l : locals) (line : string) : M locals :=
  if (LastLine.eqb (lastLine l) LastLine.comment
      && (0 <? String.length line)%nat)%bool then
    ret (Locals LastLine.code
           ((out l +:+ NL +:+ "```go" +:+ NL) +:+ line +:+ NL) (media l))
  else
    ret (Locals (lastLine l) (out l +:+ line +:+ NL) (media l)).

(** One round of [convert]'s loop. *)
Definition convertLine (l : locals) (line : string) : M locals :=
  if isDirective line then ret l
  else
    let* inComment := isInComment line in
    if inComment : bool then commentLine l line else codeLine l line.

Fixpoint convertLines (l : locals) (lines : list string) : M locals :=
  match lines with
  | [] => ret l
  | line :: lines' =>
      let* l' := convertLine l line in
      convertLines l' lines'
  end.

(** [convert]: the output text and the media set, or an error. *)
Definition convert (input : string) : M (string * gset string) :=
  let input := GoStrings.ReplaceAll input (String CR "") "" in
  let* l := convertLines (Locals LastLine.neither "" ∅)
                         (GoStrings.Split input LF) in
  if LastLine.eqb (lastLine l) LastLine.code
  then ret (out l +:+ NL +:+ "```" +:+ NL, media l)
  else ret (out l, media l).

(** Two conversions one after the other, as [main] runs them for two
    file arguments: the second call of [convert] finds
    [commentSectionInProgress] as the first one left it. *)
Definition convertTwo (a b : string)
  : M ((string * gset string) * (string * gset string)) :=
  let* ra := convert a in
  let* rb := convert b in
  ret (ra, rb).

End Converter.

(* ===================================================================== *)
(** * The vocabulary of the specification *)

(** The kind of a line, as [convert] decides it: a directive is recognised
    first and leaves the classifier alone, then [isInComment] separates
    comment lines from code lines. *)
Inductive LineKind : Type := Directive | CommentLine | CodeLine.

Definition classify (line : string) : M LineKind :=
  if isDirective line then ret Directive
  else
    let* inComment := isInComment line in
    ret (if inComment : bool then CommentLine else CodeLine).

Fixpoint classifyAll (lines : list string) : M (list LineKind) :=
  match lines with
  | [] => ret []
  | line :: lines' =>
      let* k := classify line in
      let* ks := classifyAll lines' in
      ret (k :: ks)
  end.

(** The lines [convert] and [getHTMLSnippet] loop over. *)
Definition linesOf (text : string) : list string :=
  GoStrings.Split (GoStrings.ReplaceAll text (String CR "") "") LF.

(** A start-marker line holds the start marker.  "End-marker line" has
    two readings.  In the words of the specification it is any line that
    holds the end marker ([hasEndMarker]).  As amended ([isEndLine]) it is
    a line that holds the end marker and not the start marker: a line with
    both markers counts as a start-marker line only, so it is left out of
    the snippet and does not end the scan. *)
Definition isStartLine (line : string) : bool :=
  (0 <=? GoStrings.Index line startMarker)%Z.
Definition hasEndMarker (line : string) : bool :=
  (0 <=? GoStrings.Index line endMarker)%Z.
Definition isEndLine (line : string) : bool :=
  hasEndMarker line && negb (isStartLine line).
Definition notStartLine (line : string) : bool := negb (isStartLine line).

(** The lines after the first line that satisfies [p], and the lines
    before the first line that satisfies [p]. *)
Fixpoint afterFirst (p : string -> bool) (lines : list string) : list string :=
  match lines with
  | [] => []
  | line :: lines' => if p line then lines' else afterFirst p lines'
  end.

Fixpoint upToFirst (p : string -> bool) (lines : list string) : list string :=
  match lines with
  | [] => []
  | line :: lines' => if p line then [] else line :: upToFirst p lines'
  end.

(** The copy region for a reading [isEnd] of "end-marker line": what
    follows the first start-marker line, up to the first end-marker line
    after it, without the start-marker lines. *)
Definition copyRegionBy (isEnd : string -> bool) (lines : list string)
  : list string :=
  List.filter notStartLine (upToFirst isEnd (afterFirst isStartLine lines)).

(** The copy region as amended. *)
Definition copyRegion (lines : list string) : list string :=
  copyRegionBy isEndLine lines.

(** The snippet for a reading of "end-marker line" and a way of trimming:
    every line of the copy region trimmed by [trim] and followed by a
    newline, and one more newline at the end. *)
Definition snippetBy (isEnd : string -> bool) (trim : string -> string)
           (content : string) : string :=
  GoStrings.concat
    (map (fun line => trim line +:+ NL) (copyRegionBy isEnd (linesOf content)))
    +:+ NL.

(** The snippet as amended, for a way of trimming. *)
Definition snippetSpec (trim : string -> string) (content : string) : string :=
  snippetBy isEndLine trim content.

(** A text wrapped in one pair of code fences, as [convert] writes them. *)
Definition fenced (body : string) : string :=
  (NL +:+ "```go" +:+ NL) +:+ body +:+ (NL +:+ "```" +:+ NL).

(** The two readings of "trimmed of tab characters". *)
Definition trimTabsRight (line : string) : string := GoStrings.TrimRight line [TAB].
Definition trimTabsBothEnds (line : string) : string := GoStrings.Trim line [TAB].

(** The snippet in the words of the specification: the scan ends at the
    first line after the start-marker line that holds the end marker, and
    the lines are right-trimmed of tabs. *)
Definition snippetAsStated (content : string) : string :=
  snippetBy hasEndMarker trimTabsRight content.

(** [n] newlines. *)
Definition newlines (n : nat) : string := GoStrings.concat (repeat NL n).

(** File systems used in the examples: one without any file, one where
    every path holds an empty file. *)
Definition noFiles : string -> result string := fun _ => Err "no such file".
Definition emptyFiles : string -> result string := fun _ => Ok "".

(** The comment line [// ![alt](pic.png "t")] and its image tag. *)
Definition imageTagText : string :=
  "![alt](pic.png " +:+ String DQUOTE ("t" +:+ String DQUOTE ")").
Definition imageLine : string := "// " +:+ imageTagText.

(** A Hype export whose snippet line starts and ends with a tab. *)
Definition tabbedSnippetFile : string :=
  startMarker +:+ NL +:+ String TAB ("<div>" +:+ String TAB NL) +:+ endMarker.

(** A Hype export with five lines: the start marker, [a], a line with both
    markers, [b], the end marker. *)
Definition bothMarkersFile : string :=
  startMarker +:+ NL +:+ "a" +:+ NL +:+ (startMarker +:+ endMarker) +:+ NL
    +:+ "b" +:+ NL +:+ endMarker.

(** A file that is one one-line block comment, and a file with a comment
    line and a code line. *)
Definition oneLineBlockComment : string := "/* x */".
Definition commentThenCode : string := "// a" +:+ NL +:+ "x".

(** A Hype tag with a space before the closing parenthesis. *)
Definition hypeLine : string := "// HYPE[d](a.html )".


(* ===================================================================== *)
(** * Predicates on lines, used to state what the patterns mean *)

(** Every byte of [s] is one of [chars]. *)
Fixpoint allIn (chars : list ascii) (s : string) : bool :=
  match s with
  | EmptyString => true
  | String c t => GoStrings.memb c chars && allIn chars t
  end.

(** The line starts, after white space, with [lit]. *)
Definition startsWith (lit line : string) : bool :=
  GoStrings.HasPrefix (GoStrings.TrimLeft line wsChars) lit.

(** Some [*/] of the line has only white space after it. *)
Fixpoint closesBlock (line : string) : bool :=
  (GoStrings.HasPrefix line "*/" && allIn wsChars (GoStrings.drop 2 line))
  || match line with
     | EmptyString => false
     | String _ t => closesBlock t
     end.

(** The number of bytes [c] in [s]. *)
Fixpoint countc (c : ascii) (s : string) : nat :=
  match s with
  | EmptyString => 0
  | String d t => (if Ascii.eqb d c then 1 else 0) + countc c t
  end.

(* ===================================================================== *)
(** * Facts about strings *)

Local Arguments String.append !_ _ / : simpl nomatch.

Section StringFacts.

Lemma append_nil_r (s : string) : s +:+ "" = s.
Proof. induction s as [|c s IH]; simpl; [reflexivity | now rewrite IH]. Qed.

Lemma append_assoc (a b c : string) : (a +:+ b) +:+ c = a +:+ (b +:+ c).
Proof. induction a as [|x a IH]; simpl; [reflexivity | now rewrite IH]. Qed.

Lemma append_cons (c : ascii) (s t : string) :
  String c s +:+ t = String c (s +:+ t).
Proof. reflexivity. Qed.

Lemma memb_dup (c x : ascii) : GoStrings.memb c [x; x] = GoStrings.memb c [x].
Proof. unfold GoStrings.memb; simpl. now destruct (Ascii.eqb c x). Qed.

Lemma TrimLeft_dup (s : string) (x : ascii) :
  GoStrings.TrimLeft s [x; x] = GoStrings.TrimLeft s [x].
Proof.
  induction s as [|c s IH]; [reflexivity|].
  cbn [GoStrings.TrimLeft]. rewrite memb_dup, IH. reflexivity.
Qed.

Lemma TrimRight_dup (s : string) (x : ascii) :
  GoStrings.TrimRight s [x; x] = GoStrings.TrimRight s [x].
Proof.
  induction s as [|c s IH]; [reflexivity|].
  cbn [GoStrings.TrimRight]. rewrite memb_dup, IH. reflexivity.
Qed.

Lemma Trim_dup (s : string) (x : ascii) :
  GoStrings.Trim s [x; x] = GoStrings.Trim s [x].
Proof. unfold GoStrings.Trim. now rewrite TrimLeft_dup, TrimRight_dup. Qed.

Lemma HasPrefix_take (p s : string) :
  GoStrings.HasPrefix s p = true -> GoStrings.take (String.length p) s = p.
Proof.
  revert s; induction p as [|c p IH]; intros [|d s]; simpl; try easy.
  intros [Hc Hp]%andb_true_iff. apply Ascii.eqb_eq in Hc as ->.
  now rewrite IH.
Qed.

Lemma concat_cons (x : string) (l : list string) :
  GoStrings.concat (x :: l) = x +:+ GoStrings.concat l.
Proof. reflexivity. Qed.

End StringFacts.

(* ===================================================================== *)
(** * The snippet loader *)

Section SnippetLoader.

Variable ReadFile : string -> result string.

(** With the flag on, the loop appends the lines up to the first
    end-marker line, start-marker lines left out. *)
Lemma snippetLoop_flag_on (lines : list string) (acc : string) :
  snippetLoop lines true acc
  = acc +:+ GoStrings.concat
              (map (fun line => GoStrings.Trim line [TAB; TAB] +:+ NL)
                   (List.filter notStartLine (upToFirst isEndLine lines))).
Proof.
  revert acc; induction lines as [|line lines IH]; intros acc.
  - simpl. now rewrite append_nil_r.
  - cbn [snippetLoop upToFirst]. unfold isEndLine at 1, hasEndMarker, isStartLine.
    destruct (0 <=? GoStrings.Index line startMarker)%Z eqn:Hs.
    + rewrite andb_false_r. cbn [List.filter].
      unfold notStartLine at 1, isStartLine. rewrite Hs. apply IH.
    + destruct (0 <=? GoStrings.Index line endMarker)%Z eqn:He; simpl.
      * now rewrite append_nil_r.
      * unfold notStartLine at 1, isStartLine. rewrite Hs. simpl.
        rewrite IH. now rewrite append_assoc.
Qed.

(** With the flag off, the loop looks for the first start-marker line. *)
Lemma snippetLoop_flag_off (lines : list string) (acc : string) :
  snippetLoop lines false acc
  = acc +:+ GoStrings.concat
              (map (fun line => GoStrings.Trim line [TAB; TAB] +:+ NL)
                   (copyRegion lines)).
Proof.
  unfold copyRegion, copyRegionBy.
  revert acc; induction lines as [|line lines IH]; intros acc.
  - simpl. now rewrite append_nil_r.
  - cbn [snippetLoop afterFirst]. unfold isStartLine at 1.
    destruct (0 <=? GoStrings.Index line startMarker)%Z eqn:Hs.
    + apply snippetLoop_flag_on.
    + rewrite andb_false_r.
      destruct (0 <=? GoStrings.Index line endMarker)%Z; apply IH.
Qed.


Lemma snippetOf_spec (content : string) :
  snippetOf content = snippetSpec trimTabsBothEnds content.
Proof.
  unfold snippetOf, snippetSpec, snippetBy, linesOf, trimTabsBothEnds.
  rewrite snippetLoop_flag_off. unfold copyRegion. cbn [String.append]. f_equal. f_equal.
  apply map_ext. intros line. now rewrite Trim_dup.
Qed.

(** C6, as amended: for every file content, [getHTMLSnippet] returns the
    lines of the copy region, each trimmed of tab characters at both ends
    and followed by a newline, and one more newline after them.  The copy
    region starts after the first start-marker line and ends before the
    first end-marker line that follows; start-marker lines are left out
    of it; a line with both markers counts as a start-marker line only, so
    it is left out and does not end the scan. *)
Theorem C6_snippet_trims_both_ends (path content : string) :
  ReadFile path = Ok content ->
  getHTMLSnippet ReadFile path = Ok (snippetSpec trimTabsBothEnds content).
Proof.
  intros Hread. unfold getHTMLSnippet. rewrite Hread.
  now rewrite snippetOf_spec.
Qed.

End SnippetLoader.

Lemma C6_snippet_trims_both_ends_witness :
  getHTMLSnippet (fun _ => Ok tabbedSnippetFile) "a.html"
  = Ok (snippetSpec trimTabsBothEnds tabbedSnippetFile).
Proof.
  apply (C6_snippet_trims_both_ends (fun _ => Ok tabbedSnippetFile) "a.html").
  reflexivity.
Defined.

(** C6, as stated, fails in two ways.  A line of the copy region that
    starts with a tab loses that tab as well: the lines are trimmed at both
    ends, not right-trimmed.  And a line with both markers does not end the
    scan: after the lines start marker, [a], both markers, [b], end marker
    the snippet holds [a] and [b], not [a] alone. *)
Lemma C6_as_stated_counterexample :
  (getHTMLSnippet (fun _ => Ok tabbedSnippetFile) "a.html"
     = Ok ("<div>" +:+ NL +:+ NL)
   /\ snippetAsStated tabbedSnippetFile = String TAB "<div>" +:+ NL +:+ NL
   /\ getHTMLSnippet (fun _ => Ok tabbedSnippetFile) "a.html"
      <> Ok (snippetAsStated tabbedSnippetFile))
  /\ (getHTMLSnippet (fun _ => Ok bothMarkersFile) "a.html"
        = Ok ("a" +:+ NL +:+ "b" +:+ NL +:+ NL)
      /\ snippetAsStated bothMarkersFile = "a" +:+ NL +:+ NL
      /\ getHTMLSnippet (fun _ => Ok bothMarkersFile) "a.html"
         <> Ok (snippetAsStated bothMarkersFile)).
Proof. vm_compute. repeat split; discriminate. Qed.

(** The amended reading on the file with a line that holds both markers. *)
Example snippet_with_both_markers_line :
  snippetSpec trimTabsBothEnds bothMarkersFile = "a" +:+ NL +:+ "b" +:+ NL +:+ NL.
Proof. vm_compute. reflexivity. Qed.

(* ===================================================================== *)
(** * The classifier and the converter *)

Section Classifier.

(** [isInComment] never fails. *)
Lemma isInComment_total (line : string) (g : bool) :
  exists b g', isInComment line g = (Ok b, g').
Proof.
  unfold isInComment.
  repeat match goal with |- context [if ?c then _ else _] => destruct c end;
    eauto.
Qed.

(** A line that is not part of a comment leaves the flag as it was: off. *)
Lemma isInComment_false (line : string) (g g' : bool) :
  isInComment line g = (Ok false, g') -> g = false /\ g' = false.
Proof.
  unfold isInComment.
  repeat match goal with |- context [if ?c then _ else _] => destruct c end;
    intros [=]; subst; auto.
Qed.

Lemma classify_code (line : string) (g g' : bool) :
  classify line g = (Ok CodeLine, g') ->
  isDirective line = false /\ isInComment line g = (Ok false, g) /\ g' = g.
Proof.
  unfold classify. destruct (isDirective line); [discriminate|].
  unfold bind. destruct (isInComment_total line g) as (b & g1 & E).
  rewrite E. destruct b; [discriminate|]. intros [= <-].
  apply isInComment_false in E as E'. destruct E' as [-> ->]. auto.
Qed.

(** When every line is a code line, the flag is off before and after. *)
Lemma classifyAll_code (lines : list string) (g : bool) :
  fst (classifyAll lines g) = Ok (map (fun _ => CodeLine) lines) ->
  Forall (fun line => classify line g = (Ok CodeLine, g)) lines.
Proof.
  induction lines as [|line lines IH]; [constructor|].
  cbn [classifyAll map]. unfold bind at 1.
  destruct (classify line g) as [[k|e] g1] eqn:E; [|discriminate].
  unfold bind at 1.
  destruct (classifyAll lines g1) as [[ks|e] g2] eqn:E2; [|discriminate].
  cbn. intros [= -> ->].
  apply classify_code in E as E'. destruct E' as (_ & _ & ->).
  constructor; [assumption|]. apply IH. now rewrite E2.
Qed.

End Classifier.

Section SplitFacts.

Lemma Split_not_nil (s : string) (sep : ascii) : GoStrings.Split s sep <> [].
Proof.
  induction s as [|c s IH]; cbn; [discriminate|].
  destruct (Ascii.eqb c sep); [discriminate|].
  destruct (GoStrings.Split s sep); [contradiction | discriminate].
Qed.

(** Writing every piece back with the separator after it gives the text
    and one more separator. *)
Lemma concat_Split (s : string) (sep : ascii) :
  GoStrings.concat (map (fun piece => piece +:+ String sep "")
                        (GoStrings.Split s sep))
  = s +:+ String sep "".
Proof.
  induction s as [|c s IH]; [reflexivity|].
  cbn [GoStrings.Split]. destruct (Ascii.eqb_spec c sep) as [->|Hne].
  - cbn [map]. rewrite concat_cons, IH. reflexivity.
  - destruct (GoStrings.Split s sep) as [|piece pieces] eqn:E.
    + now apply Split_not_nil in E.
    + cbn [map] in *. rewrite concat_cons in *.
      rewrite !append_cons. now rewrite IH.
Qed.

End SplitFacts.

Section ConverterFacts.

Variable ReadFile : string -> result string.

(** A code line met while the last line was not a comment line is
    copied, and nothing else changes. *)
Lemma convertLine_code (l : locals) (line : string) (g : bool) :
  classify line g = (Ok CodeLine, g) ->
  lastLine l <> LastLine.comment ->
  convertLine ReadFile l line g
  = (Ok (Locals (lastLine l) (out l +:+ line +:+ NL) (media l)), g).
Proof.
  intros (Hd & Hc & _)%classify_code Hl.
  unfold convertLine, bind. rewrite Hd, Hc. unfold codeLine.
  destruct (lastLine l); [reflexivity | contradiction | reflexivity].
Qed.

Lemma convertLines_code (lines : list string) (l : locals) (g : bool) :
  Forall (fun line => classify line g = (Ok CodeLine, g)) lines ->
  lastLine l <> LastLine.comment ->
  convertLines ReadFile l lines g
  = (Ok (Locals (lastLine l)
                (out l +:+ GoStrings.concat (map (fun line => line +:+ NL) lines))
                (media l)), g).
Proof.
  intros Hall. revert l. induction Hall as [|line lines Hline _ IH]; intros l Hl.
  - cbn. rewrite append_nil_r. now destruct l.
  - cbn [convertLines]. unfold bind. rewrite convertLine_code by assumption.
    rewrite IH by assumption. cbn [lastLine out media map].
    rewrite concat_cons. now rewrite !append_assoc.
Qed.

(** C1, as amended: when every line of the input is a code line,
    [convert] returns the input (carriage returns removed) followed by one
    newline, without any code fence, and an empty media set; the
    classifier's flag is as before. *)
Theorem C1_code_only_is_not_fenced (input : string) (g : bool) :
  fst (classifyAll (linesOf input) g)
    = Ok (map (fun _ => CodeLine) (linesOf input)) ->
  convert ReadFile input g
  = (Ok (GoStrings.ReplaceAll input (String CR "") "" +:+ NL, ∅), g).
Proof.
  intros Hall%classifyAll_code. unfold convert, bind.
  fold (linesOf input).
  rewrite convertLines_code by (assumption || discriminate).
  cbn. unfold linesOf. now rewrite (concat_Split _ LF).
Qed.

End ConverterFacts.

Lemma C1_code_only_is_not_fenced_witness :
  fst (classifyAll (linesOf "package main") commentFinder)
    = Ok (map (fun _ => CodeLine) (linesOf "package main"))
  /\ convert noFiles "package main" commentFinder
     = (Ok ("package main" +:+ NL, ∅), commentFinder).
Proof.
  split; [reflexivity|].
  apply (C1_code_only_is_not_fenced noFiles "package main" commentFinder).
  reflexivity.
Defined.

(** C1, as stated, fails: the input [package main] has one line, a code
    line, and the output holds no code fence at all. *)
Lemma C1_fence_pair_counterexample :
  fst (classifyAll (linesOf "package main") commentFinder) = Ok [CodeLine]
  /\ convert noFiles "package main" commentFinder
     = (Ok ("package main" +:+ NL, ∅), commentFinder)
  /\ GoStrings.Index ("package main" +:+ NL) "```" = (-1)%Z
  /\ convert noFiles "package main" commentFinder
     <> (Ok (fenced ("package main" +:+ NL), ∅), commentFinder).
Proof. vm_compute. repeat split; discriminate. Qed.

Section BlankLines.

Variable ReadFile : string -> result string.

(** An empty line after a comment line: whether the classifier takes it
    for a comment line (inside a block comment) or for a code line, one
    newline is written and the last line stays a comment line. *)
Lemma convertLine_blank (l : locals) (g : bool) :
  lastLine l = LastLine.comment ->
  convertLine ReadFile l "" g
  = (Ok (Locals LastLine.comment (out l +:+ NL) (media l)), g).
Proof.
  destruct l as [ll o m]; cbn [lastLine out media]; intros ->.
  destruct g; reflexivity.
Qed.

Lemma convertLines_blank (n : nat) (l : locals) (g : bool) :
  lastLine l = LastLine.comment ->
  convertLines ReadFile l (repeat "" n) g
  = (Ok (Locals LastLine.comment (out l +:+ newlines n) (media l)), g).
Proof.
  revert l; induction n as [|n IH]; intros l Hl.
  - cbn. rewrite append_nil_r. destruct l; cbn in *; now subst.
  - cbn [repeat convertLines]. unfold bind.
    rewrite convertLine_blank by assumption.
    rewrite IH by reflexivity. cbn [out media].
    unfold newlines. cbn [repeat]. rewrite concat_cons.
    now rewrite append_assoc.
Qed.

(** C7: while the last line is a comment line, an empty line writes a
    newline only, and the last line stays a comment line, also for any
    number of empty lines in a row; the opening fence is written by the
    first code line that is not empty. *)
Theorem C7_blank_line_opens_no_fence (l : locals) (g : bool) :
  lastLine l = LastLine.comment ->
  convertLine ReadFile l "" g
    = (Ok (Locals LastLine.comment (out l +:+ NL) (media l)), g)
  /\ (forall n : nat,
        convertLines ReadFile l (repeat "" n) g
        = (Ok (Locals LastLine.comment (out l +:+ newlines n) (media l)), g))
  /\ (forall line : string,
        classify line g = (Ok CodeLine, g) -> line <> "" ->
        convertLine ReadFile l line g
        = (Ok (Locals LastLine.code
                 ((out l +:+ NL +:+ "```go" +:+ NL) +:+ line +:+ NL)
                 (media l)), g)).
Proof.
  intros Hl. split; [|split].
  - now apply convertLine_blank.
  - intros n. now apply convertLines_blank.
  - intros line (Hd & Hc & _)%classify_code Hne.
    unfold convertLine, bind. rewrite Hd, Hc. unfold codeLine. rewrite Hl.
    destruct line; [contradiction | reflexivity].
Qed.

End BlankLines.

Lemma C7_blank_line_opens_no_fence_witness :
  lastLine (Locals LastLine.comment "a" ∅) = LastLine.comment
  /\ convertLine noFiles (Locals LastLine.comment "a" ∅) "" false
     = (Ok (Locals LastLine.comment ("a" +:+ NL) ∅), false).
Proof.
  split; [reflexivity|].
  exact (proj1 (C7_blank_line_opens_no_fence noFiles
                  (Locals LastLine.comment "a" ∅) false eq_refl)).
Defined.

(** A blank line between two comment lines: no fence in the output. *)
Example blank_line_between_comments :
  convert noFiles ("// a" +:+ NL +:+ NL +:+ "// b") commentFinder
  = (Ok ("a" +:+ NL +:+ NL +:+ "b" +:+ NL, ∅), false).
Proof. vm_compute. reflexivity. Qed.

(** Blank lines between a comment line and the code: the fence comes with
    the code. *)
Example blank_lines_before_code :
  convert noFiles ("// a" +:+ NL +:+ NL +:+ NL +:+ "x") commentFinder
  = (Ok ("a" +:+ NL +:+ NL +:+ NL +:+ fenced ("x" +:+ NL), ∅), false).
Proof. vm_compute. reflexivity. Qed.

Section SharedState.

Variable ReadFile : string -> result string.

(** C2 fails on the code: [isInComment] is one closure for the whole
    program.  After the file [/* x */] the flag is left on, and the file
    made of the lines [// a] and [x] is converted differently: its code
    line is taken for a comment line and gets no fence. *)
Theorem C2_flag_survives_conversion :
  convert ReadFile commentThenCode commentFinder
    = (Ok ("a" +:+ NL +:+ fenced ("x" +:+ NL), ∅), false)
  /\ convert ReadFile oneLineBlockComment commentFinder
    = (Ok ("x" +:+ NL, ∅), true)
  /\ convertTwo ReadFile oneLineBlockComment commentThenCode commentFinder
    = (Ok (("x" +:+ NL, ∅), ("a" +:+ NL +:+ "x" +:+ NL, ∅)), true)
  /\ "a" +:+ NL +:+ fenced ("x" +:+ NL) <> "a" +:+ NL +:+ "x" +:+ NL.
Proof. vm_compute. repeat split; discriminate. Qed.

End SharedState.

(** C3 fails on the code: the path of a Hype tag is put into the media set
    as the pattern captured it, and the capture takes the spaces before the
    closing parenthesis. *)
Theorem C3_hype_path_keeps_trailing_space :
  convert emptyFiles hypeLine commentFinder
    = (Ok (NL, {["a.hyperesources "]}), false)
  /\ GoStrings.Trim "a.hyperesources " [SP; TAB] <> "a.hyperesources ".
Proof. vm_compute. split; [reflexivity | discriminate]. Qed.

Section ImageTag.

Variable ReadFile : string -> result string.

(** C4, as amended: converting the line [// ![alt](pic.png "t")] gives
    the media set with the one path [pic.png], and the output is the
    line without its comment delimiter: the image tag is kept as it is. *)
Theorem C4_image_tag_is_kept :
  convert ReadFile imageLine commentFinder
  = (Ok (imageTagText +:+ NL, {["pic.png"]}), false).
Proof. vm_compute. reflexivity. Qed.

End ImageTag.

(** C4, as stated, fails: the output starts with the literal image tag. *)
Lemma C4_no_tag_counterexample :
  convert noFiles imageLine commentFinder
    = (Ok (imageTagText +:+ NL, {["pic.png"]}), false)
  /\ GoStrings.Index (imageTagText +:+ NL) imageTagText = 0%Z
  /\ GoStrings.Index (imageTagText +:+ NL) "![" = 0%Z.
Proof. vm_compute. auto. Qed.

(* ===================================================================== *)
(** * Facts about the matcher and the patterns *)

Section RegexpFacts.

(** A pattern that starts with [^] matches at the beginning only. *)
Lemma exec_Bol_later (r : regex) (p : nat) (s : string) (cs : list (nat * string)) :
  exec (Seq Bol r) (Cursor (S p) s cs) = [].
Proof. reflexivity. Qed.

Lemma exec_Bol_start (r : regex) (s : string) (cs : list (nat * string)) :
  exec (Seq Bol r) (Cursor 0 s cs) = exec r (Cursor 0 s cs).
Proof. cbn. apply app_nil_r. Qed.

Lemma search_Bol_later (r : regex) (p : nat) (s : string) :
  search (Seq Bol r) (S p) s = None.
Proof.
  revert p; induction s as [|c s IH]; intros p; cbn [search];
    rewrite exec_Bol_later; [reflexivity | apply IH].
Qed.

Lemma search_Bol (r : regex) (s : string) :
  search (Seq Bol r) 0 s
  = match exec r (Cursor 0 s []) with
    | y :: _ => Some (0, y)
    | [] => None
    end.
Proof.
  destruct s; cbn [search]; rewrite exec_Bol_start;
    destruct (exec r _); try reflexivity.
  apply search_Bol_later.
Qed.

(** [k*] in front of a character: greedy, one character at a time. *)
Lemma exec_Star_Cls (k : cclass) (p : nat) (c : ascii) (t : string)
      (cs : list (nat * string)) :
  exec (Star (Cls k)) (Cursor p (String c t) cs)
  = if in_class k c
    then exec (Star (Cls k)) (Cursor (p + 1) t cs) ++ [Cursor p (String c t) cs]
    else [Cursor p (String c t) cs].
Proof.
  cbn [exec rest String.length iterate]. destruct (in_class k c); [|reflexivity].
  cbn [flat_map advance pos rest caps GoStrings.drop].
  replace (p <? p + 1)%nat with true by (symmetry; apply Nat.ltb_lt; lia).
  now rewrite app_nil_r.
Qed.

Lemma Contains_here (s sub : string) :
  GoStrings.Contains s sub = false -> GoStrings.HasPrefix s sub = false.
Proof. destruct s; cbn [GoStrings.Contains]; now intros [H _]%orb_false_iff. Qed.

Lemma Contains_tail (d : ascii) (s sub : string) :
  GoStrings.Contains (String d s) sub = false -> GoStrings.Contains s sub = false.
Proof. cbn [GoStrings.Contains]. now intros [_ H]%orb_false_iff. Qed.

Lemma ContainsAny_tail (c d : ascii) (s : string) :
  GoStrings.ContainsAny (String d s) [c] = false ->
  GoStrings.ContainsAny s [c] = false.
Proof. cbn. now intros [_ H]%orb_false_iff. Qed.

Lemma ContainsAny_one (s : string) (cs : list ascii) (c : ascii) :
  GoStrings.ContainsAny s cs = false -> In c cs ->
  GoStrings.ContainsAny s [c] = false.
Proof.
  intros H Hin. induction s as [|d s IH]; [reflexivity|].
  cbn in *. apply orb_false_iff in H as [Hd Hs]. rewrite (IH Hs).
  unfold GoStrings.memb in *. cbn. rewrite orb_false_r, orb_false_r.
  destruct (Ascii.eqb_spec d c) as [->|]; [|reflexivity].
  rewrite <- Hd. symmetry. apply existsb_exists. exists c.
  split; [assumption | apply Ascii.eqb_refl].
Qed.

(** The first two items of [imagePtrn] and [hypePtrn]: a character, then
    a literal.  Where the literal does not occur in the text there is no
    match. *)
Lemma search_needs_lit (k : cclass) (lit : string) (r : regex)
      (s : string) (p : nat) :
  GoStrings.Contains s lit = false ->
  search (Seq (Cls k) (Seq (Lit lit) r)) p s = None.
Proof.
  revert p; induction s as [|d s IH]; intros p Hs; [reflexivity|].
  apply Contains_tail in Hs as Ht.
  cbn [search exec rest]. destruct (in_class k d).
  - cbn [flat_map advance pos rest caps GoStrings.drop exec].
    rewrite (Contains_here _ _ Ht). cbn. now apply IH.
  - cbn. now apply IH.
Qed.

End RegexpFacts.

Section CommentPatterns.

(** [\s*] followed by a literal that does not start with white space:
    the literal has to follow the white space at the cursor. *)
Lemma exec_ws_lit_none (c0 : ascii) (l : string) (r : regex) (s : string)
      (p : nat) (cs : list (nat * string)) :
  GoStrings.memb c0 wsChars = false ->
  GoStrings.HasPrefix (GoStrings.TrimLeft s wsChars) (String c0 l) = false ->
  exec (Seq (Star ws) (Seq (Lit (String c0 l)) r)) (Cursor p s cs) = [].
Proof.
  intros Hc0. revert p; induction s as [|c s IH]; intros p Hpre.
  - reflexivity.
  - change (exec (Seq (Star ws) ?q) ?x) with (flat_map (exec q) (exec (Star ws) x)).
    unfold ws at 1. rewrite exec_Star_Cls. cbn [in_class].
    cbn [GoStrings.TrimLeft] in Hpre.
    assert (Hhere : exec (Seq (Lit (String c0 l)) r) (Cursor p (String c s) cs) = []).
    { cbn [exec rest]. destruct (GoStrings.memb c wsChars) eqn:Hc.
      - cbn [GoStrings.HasPrefix]. destruct (Ascii.eqb_spec c c0) as [->|_].
        + congruence.
        + reflexivity.
      - now rewrite Hpre. }
    destruct (GoStrings.memb c wsChars) eqn:Hc.
    + rewrite flat_map_app. cbn [flat_map]. rewrite Hhere.
      change (flat_map (exec ?q) (exec (Star (Cls (OneOf wsChars))) ?x))
        with (exec (Seq (Star ws) q) x).
      now rewrite IH.
    + cbn [flat_map]. now rewrite Hhere.
Qed.

Lemma HasPrefix_cons (a p : ascii) (s l : string) :
  GoStrings.HasPrefix (String a s) (String p l)
  = Ascii.eqb a p && GoStrings.HasPrefix s l.
Proof. reflexivity. Qed.

Lemma HasPrefix_two (s l : string) (p q : ascii) :
  GoStrings.HasPrefix s (String p (String q l)) = true ->
  exists t, s = String p (String q t).
Proof.
  destruct s as [|a [|b t]]; rewrite ?HasPrefix_cons; cbn [GoStrings.HasPrefix];
    rewrite ?andb_false_r; try discriminate.
  intros [Ha [Hb _]%andb_true_iff]%andb_true_iff.
  apply Ascii.eqb_eq in Ha as ->, Hb as ->. eauto.
Qed.

Lemma FindString_some (r : regex) (s : string) :
  nonempty (FindString r s) = true -> search r 0 s <> None.
Proof. unfold FindString. intros H E. rewrite E in H. discriminate. Qed.

(** What [comment] and [commentStart] need of a line. *)
Lemma comment_needs_slashes (line : string) :
  nonempty (FindString comment line) = true ->
  GoStrings.HasPrefix (GoStrings.TrimLeft line wsChars) "//" = true.
Proof.
  intros H%FindString_some. unfold comment, commentPtrn in H.
  rewrite search_Bol in H.
  destruct (GoStrings.HasPrefix _ "//") eqn:E; [reflexivity|].
  rewrite exec_ws_lit_none in H by (reflexivity || assumption).
  contradiction.
Qed.

Lemma commentStart_needs_opener (line : string) :
  nonempty (FindString commentStart line) = true ->
  GoStrings.HasPrefix (GoStrings.TrimLeft line wsChars) "/*" = true.
Proof.
  intros H%FindString_some. unfold commentStart, commentStartPtrn in H.
  rewrite search_Bol in H.
  destruct (GoStrings.HasPrefix _ "/*") eqn:E; [reflexivity|].
  rewrite exec_ws_lit_none in H by (reflexivity || assumption).
  contradiction.
Qed.

(** A line cannot start both a line comment and a block comment. *)
Lemma opener_is_no_line_comment (line : string) :
  nonempty (FindString commentStart line) = true ->
  nonempty (FindString comment line) = false.
Proof.
  intros Hs%commentStart_needs_opener.
  destruct (nonempty (FindString comment line)) eqn:Hc; [|reflexivity].
  apply comment_needs_slashes in Hc.
  apply HasPrefix_two in Hs as [t Hs], Hc as [t' Hc]. congruence.
Qed.

(** [isDirective] tests for the prefix [//go:]. *)
Lemma isDirective_prefix (line : string) :
  isDirective line = GoStrings.HasPrefix line "//go:".
Proof.
  unfold isDirective, FindString, directive, directivePtrn.
  rewrite search_Bol. cbn [exec rest].
  destruct (GoStrings.HasPrefix line "//go:") eqn:E; [|reflexivity].
  cbn [advance pos rest]. unfold GoStrings.slice. cbn [GoStrings.drop].
  change (0 + String.length "//go:" - 0) with (String.length "//go:").
  now rewrite (HasPrefix_take _ _ E).
Qed.

Lemma opener_is_no_directive (line : string) :
  nonempty (FindString commentStart line) = true ->
  isDirective line = false.
Proof.
  intros Hs%commentStart_needs_opener. rewrite isDirective_prefix.
  destruct (GoStrings.HasPrefix line "//go:") eqn:Hd; [|reflexivity].
  apply HasPrefix_two in Hd as [t ->]. cbn in Hs. discriminate.
Qed.

(** C5: a line that matches the block-comment opener and the
    block-comment closer (a one-line block comment) is a comment line by
    the opener's rule, and the flag is on after the call, whatever it was
    before. *)
Theorem C5_opener_rule_wins (line : string) (g : bool) :
  nonempty (FindString commentStart line) = true ->
  nonempty (FindString commentEnd line) = true ->
  isInComment line g = (Ok true, true)
  /\ classify line g = (Ok CommentLine, true).
Proof.
  intros Hstart Hend.
  assert (E : isInComment line g = (Ok true, true)).
  { unfold isInComment.
    now rewrite (opener_is_no_line_comment _ Hstart), Hstart. }
  split; [exact E|].
  unfold classify, bind.
  now rewrite (opener_is_no_directive _ Hstart), E.
Qed.

End CommentPatterns.

Lemma C5_opener_rule_wins_witness :
  nonempty (FindString commentStart oneLineBlockComment) = true
  /\ nonempty (FindString commentEnd oneLineBlockComment) = true
  /\ isInComment oneLineBlockComment false = (Ok true, true)
  /\ classify oneLineBlockComment false = (Ok CommentLine, true).
Proof.
  split; [reflexivity|]. split; [reflexivity|].
  apply (C5_opener_rule_wins oneLineBlockComment false); reflexivity.
Defined.

Section LineFacts.

Lemma HasPrefix_nil (s : string) : GoStrings.HasPrefix s "" = true.
Proof. now destruct s. Qed.

(** Removing carriage returns, piece by piece. *)
Lemma removeCR_cons (c : ascii) (s : string) :
  GoStrings.ReplaceAll (String c s) (String CR "") ""
  = if Ascii.eqb c CR then GoStrings.ReplaceAll s (String CR "") ""
    else String c (GoStrings.ReplaceAll s (String CR "") "").
Proof.
  unfold GoStrings.ReplaceAll. cbn [GoStrings.Replace_go GoStrings.HasPrefix].
  rewrite HasPrefix_nil, andb_true_r. now destruct (Ascii.eqb c CR).
Qed.

Lemma removeCR_app (a b : string) :
  GoStrings.ReplaceAll (a +:+ b) (String CR "") ""
  = GoStrings.ReplaceAll a (String CR "") ""
    +:+ GoStrings.ReplaceAll b (String CR "") "".
Proof.
  induction a as [|c a IH]; [reflexivity|].
  rewrite append_cons, !removeCR_cons, IH.
  now destruct (Ascii.eqb c CR).
Qed.

Lemma removeCR_id (s : string) :
  GoStrings.ContainsAny s [CR] = false ->
  GoStrings.ReplaceAll s (String CR "") "" = s.
Proof.
  induction s as [|c s IH]; [reflexivity|].
  intros H. rewrite removeCR_cons. apply ContainsAny_tail in H as Ht.
  cbn in H. unfold GoStrings.memb in H. cbn in H.
  destruct (Ascii.eqb c CR); [discriminate|]. now rewrite IH.
Qed.

Lemma Split_app (a b : string) (sep : ascii) :
  GoStrings.Split (a +:+ String sep b) sep
  = GoStrings.Split a sep ++ GoStrings.Split b sep.
Proof.
  induction a as [|c a IH].
  - cbn. now rewrite Ascii.eqb_refl.
  - rewrite append_cons. cbn [GoStrings.Split]. rewrite IH.
    destruct (Ascii.eqb c sep); [reflexivity|].
    destruct (GoStrings.Split a sep) as [|piece pieces] eqn:E;
      [now apply Split_not_nil in E | reflexivity].
Qed.

Lemma Split_one (s : string) (sep : ascii) :
  GoStrings.ContainsAny s [sep] = false -> GoStrings.Split s sep = [s].
Proof.
  induction s as [|c s IH]; [reflexivity|].
  intros H. apply ContainsAny_tail in H as Ht.
  cbn in H. unfold GoStrings.memb in H. cbn in H.
  cbn [GoStrings.Split]. destruct (Ascii.eqb c sep); [discriminate|].
  now rewrite IH.
Qed.

(** The lines of a text with one more line in the middle. *)
Lemma linesOf_app (a b : string) :
  linesOf (a +:+ NL +:+ b) = linesOf a ++ linesOf b.
Proof.
  unfold linesOf, NL. cbn [String.append].
  rewrite removeCR_app, removeCR_cons. cbn [Ascii.eqb CR LF Bool.eqb].
  apply Split_app.
Qed.

Lemma removeCR_no_LF (s : string) :
  GoStrings.ContainsAny s [LF] = false ->
  GoStrings.ContainsAny (GoStrings.ReplaceAll s (String CR "") "") [LF] = false.
Proof.
  induction s as [|c s IH]; [reflexivity|].
  intros H. apply ContainsAny_tail in H as Ht. rewrite removeCR_cons.
  destruct (Ascii.eqb c CR); [now apply IH|].
  cbn [GoStrings.ContainsAny] in H |- *.
  apply orb_false_iff in H as [-> _]. now apply IH.
Qed.

(** A prefix without carriage returns is still there when the carriage
    returns are removed. *)
Lemma removeCR_prefix (p s : string) :
  GoStrings.ContainsAny p [CR] = false ->
  GoStrings.HasPrefix s p = true ->
  GoStrings.HasPrefix (GoStrings.ReplaceAll s (String CR "") "") p = true.
Proof.
  revert s; induction p as [|c p IH]; intros s Hp Hs; [apply HasPrefix_nil|].
  destruct s as [|d s]; [discriminate|].
  rewrite HasPrefix_cons in Hs. apply andb_true_iff in Hs as [Hc Hs].
  apply Ascii.eqb_eq in Hc as ->. apply ContainsAny_tail in Hp as Hp'.
  cbn [GoStrings.ContainsAny] in Hp. apply orb_false_iff in Hp as [Hc _].
  unfold GoStrings.memb in Hc. cbn in Hc. rewrite orb_false_r in Hc.
  rewrite removeCR_cons, Hc, HasPrefix_cons, Ascii.eqb_refl.
  now apply IH.
Qed.

(** A text without a newline is one line. *)
Lemma linesOf_one (d : string) :
  GoStrings.ContainsAny d [LF] = false ->
  linesOf d = [GoStrings.ReplaceAll d (String CR "") ""].
Proof. intros H. unfold linesOf. now apply Split_one, removeCR_no_LF. Qed.

End LineFacts.

Section Directives.

Variable ReadFile : string -> result string.

Lemma convertLines_app (pre post : list string) (l : locals) (g : bool) :
  convertLines ReadFile l (pre ++ post) g
  = bind (convertLines ReadFile l pre)
         (fun l' => convertLines ReadFile l' post) g.
Proof.
  revert l g; induction pre as [|line pre IH]; intros l g; [reflexivity|].
  cbn [app convertLines]. unfold bind.
  destruct (convertLine ReadFile l line g) as [[l'|e] g']; [|reflexivity].
  rewrite IH. reflexivity.
Qed.

Lemma convertLine_directive (l : locals) (d : string) (g : bool) :
  isDirective d = true -> convertLine ReadFile l d g = (Ok l, g).
Proof. intros H. unfold convertLine. now rewrite H. Qed.

Lemma convertLines_directive (pre post : list string) (d : string)
      (l : locals) (g : bool) :
  isDirective d = true ->
  convertLines ReadFile l (pre ++ d :: post) g
  = convertLines ReadFile l (pre ++ post) g.
Proof.
  intros H. rewrite !convertLines_app. unfold bind.
  destruct (convertLines ReadFile l pre g) as [[l'|e] g']; [|reflexivity].
  cbn [convertLines]. unfold bind. now rewrite convertLine_directive.
Qed.

(** C8: a line that starts with [//go:] (no white space before it) is a
    directive; [convert]'s loop passes it without a call of the
    classifier and without a change to its variables.  Alone it is
    converted to the empty output and the empty media set, and the
    conversion of a text with such a line (as last, first or inner line) is
    the conversion of the text without it: same output, same media set,
    same flag. *)
Theorem C8_directive_is_skipped (d : string) :
  GoStrings.HasPrefix d "//go:" = true ->
  GoStrings.ContainsAny d [LF] = false ->
  let line := GoStrings.ReplaceAll d (String CR "") "" in
  (forall g, classify line g = (Ok Directive, g))
  /\ (forall l g, convertLine ReadFile l line g = (Ok l, g))
  /\ (forall g, convert ReadFile d g = (Ok ("", ∅), g))
  /\ (forall a g, convert ReadFile (a +:+ NL +:+ d) g = convert ReadFile a g)
  /\ (forall b g, convert ReadFile (d +:+ NL +:+ b) g = convert ReadFile b g)
  /\ (forall a b g,
        convert ReadFile (a +:+ NL +:+ d +:+ NL +:+ b) g
        = convert ReadFile (a +:+ NL +:+ b) g).
Proof.
  intros Hpre Hline line.
  assert (Hdir : isDirective line = true).
  { rewrite isDirective_prefix. now apply removeCR_prefix. }
  assert (Hlines := linesOf_one d Hline). fold line in Hlines.
  repeat split.
  - intros g. unfold classify. now rewrite Hdir.
  - intros l g. now apply convertLine_directive.
  - intros g. unfold convert. fold (linesOf d). rewrite Hlines.
    cbn [convertLines]. unfold bind. now rewrite convertLine_directive.
  - intros a g. unfold convert. fold (linesOf (a +:+ NL +:+ d)) (linesOf a).
    rewrite linesOf_app, Hlines. unfold bind.
    rewrite convertLines_directive by assumption. now rewrite app_nil_r.
  - intros b g. unfold convert. fold (linesOf (d +:+ NL +:+ b)) (linesOf b).
    rewrite linesOf_app, Hlines. cbn [app convertLines]. unfold bind.
    now rewrite convertLine_directive.
  - intros a b g. unfold convert. fold (linesOf (a +:+ NL +:+ d +:+ NL +:+ b)).
    fold (linesOf (a +:+ NL +:+ b)).
    rewrite !linesOf_app, Hlines.
    cbn [app]. unfold bind. now rewrite convertLines_directive.
Qed.

End Directives.

Lemma C8_directive_is_skipped_witness :
  GoStrings.HasPrefix "//go:generate foo" "//go:" = true
  /\ GoStrings.ContainsAny "//go:generate foo" [LF] = false
  /\ convert noFiles "//go:generate foo" commentFinder = (Ok ("", ∅), commentFinder)
  /\ convert noFiles ("// a" +:+ NL +:+ "//go:generate foo" +:+ NL +:+ "x") false
     = convert noFiles ("// a" +:+ NL +:+ "x") false.
Proof.
  split; [reflexivity|]. split; [reflexivity|].
  destruct (C8_directive_is_skipped noFiles "//go:generate foo" eq_refl eq_refl)
    as (_ & _ & Halone & _ & _ & Hinner).
  split; [apply (Halone commentFinder) | apply (Hinner "// a" "x" false)].
Defined.

(** The directive alone: empty output, empty media set. *)
Example directive_alone :
  convert noFiles "//go:generate foo" commentFinder = (Ok ("", ∅), false).
Proof. vm_compute. reflexivity. Qed.

Section LineComment.

Variable ReadFile : string -> result string.

Lemma exec_Alt (a b : regex) (x : cursor) :
  exec (Alt a b) x = exec a x ++ exec b x.
Proof. reflexivity. Qed.

(** Without a [*] in the text there is no block-comment closer. *)
Lemma exec_Lit_absent (lit : string) (q : regex) (x : cursor) :
  GoStrings.HasPrefix (rest x) lit = false ->
  exec (Seq (Lit lit) q) x = [].
Proof. intros H. cbn [exec]. now rewrite H. Qed.

Lemma exec_commentEnd_none (s : string) (p : nat) (cs : list (nat * string)) :
  GoStrings.Contains s "*/" = false ->
  exec commentEndPtrn (Cursor p s cs) = [].
Proof.
  intros Hs. unfold commentEndPtrn.
  change (exec (Seq (Opt ws) ?q) ?x) with (flat_map (exec q) (exec ws x ++ [x])).
  rewrite flat_map_app. cbn [flat_map].
  rewrite (exec_Lit_absent _ _ (Cursor p s cs)) by exact (Contains_here _ _ Hs).
  rewrite app_nil_r.
  destruct s as [|c t]; [reflexivity|].
  change (exec ws ?x) with (if in_class (OneOf wsChars) c then [advance 1 x] else []).
  destruct (in_class _ c); [|reflexivity].
  cbn [flat_map]. rewrite exec_Lit_absent; [reflexivity|].
  exact (Contains_here _ _ (Contains_tail _ _ _ Hs)).
Qed.

Lemma search_delims_later (s : string) (p : nat) :
  GoStrings.Contains s "*/" = false ->
  search allCommentDelims (S p) s = None.
Proof.
  revert p; induction s as [|c s IH]; intros p Hs; cbn [search];
    unfold allCommentDelims, commentPtrn, commentStartPtrn;
    rewrite !exec_Alt, !exec_Bol_later, exec_commentEnd_none by exact Hs;
    [reflexivity|].
  apply IH. eapply Contains_tail, Hs.
Qed.

(** The line-comment delimiter with one space after it, at the beginning
    of the text. *)
Lemma exec_comment_delim (body : string) :
  exec (Seq (Star ws) (Seq (Lit "//") (Opt ws)))
       (Cursor 0 (String "/" (String "/" (String " " body))) [])
  = [Cursor 3 body []; Cursor 2 (String " " body) []].
Proof. reflexivity. Qed.

Lemma search_comment_delim (body : string) :
  search comment 0 (String "/" (String "/" (String " " body)))
  = Some (0, Cursor 3 body []).
Proof.
  unfold comment, commentPtrn. rewrite search_Bol.
  now rewrite exec_comment_delim.
Qed.

Lemma search_delims_start (body : string) :
  search allCommentDelims 0 (String "/" (String "/" (String " " body)))
  = Some (0, Cursor 3 body []).
Proof.
  cbn [search]. unfold allCommentDelims at 1, commentPtrn at 1.
  rewrite exec_Alt, exec_Bol_start, exec_comment_delim. reflexivity.
Qed.

(** Stripping the delimiters of [// body]. *)
Lemma strip_line_comment (body : string) :
  GoStrings.Contains body "*/" = false ->
  ReplaceAllString allCommentDelims (String "/" (String "/" (String " " body))) ""
  = body.
Proof.
  intros Hb. unfold ReplaceAllString.
  cbn [String.length replaceAll Nat.leb GoStrings.drop].
  rewrite search_delims_start.
  cbn [pos Nat.ltb Nat.leb orb Nat.add GoStrings.slice GoStrings.take
       Nat.sub String.append replaceAll GoStrings.drop].
  rewrite (search_delims_later _ _ Hb). reflexivity.
Qed.

Lemma linesOf_line2 (d : string) :
  GoStrings.ContainsAny d [LF] = false ->
  GoStrings.ContainsAny d [CR] = false ->
  linesOf d = [d].
Proof.
  intros Hlf Hcr. unfold linesOf. rewrite (removeCR_id _ Hcr).
  now apply Split_one.
Qed.

(** C9: the line comment [// body], where [body] is one line without a
    block-comment closer and without the opening of an image or Hype tag,
    is converted to [body] and a newline: the [//] and the one space after
    it are gone, and the spaces that [body] starts with are kept. *)
Theorem C9_line_comment_text (body : string) (g : bool) :
  GoStrings.ContainsAny body [LF; CR] = false ->
  GoStrings.Contains body "*/" = false ->
  GoStrings.Contains body "![" = false ->
  GoStrings.Contains body "HYPE[" = false ->
  convert ReadFile ("// " +:+ body) g = (Ok (body +:+ NL, ∅), g).
Proof.
  intros Hb Hstar Hbang Hhype.
  assert (Hlf := ContainsAny_one _ _ LF Hb ltac:(cbn; tauto)).
  assert (Hcr := ContainsAny_one _ _ CR Hb ltac:(cbn; tauto)).
  cbn [String.append].
  set (line := String "/" (String "/" (String " " body))).
  assert (Hno : forall c, GoStrings.memb "/" [c] = false ->
                GoStrings.memb " " [c] = false ->
                GoStrings.ContainsAny body [c] = false ->
                GoStrings.ContainsAny line [c] = false).
  { intros c H1 H2 H3. unfold line. cbn [GoStrings.ContainsAny].
    now rewrite H1, H2, H3. }
  assert (Hbang' : GoStrings.Contains line "![" = false).
  { unfold line. cbn [GoStrings.Contains]. now rewrite Hbang. }
  assert (Hhype' : GoStrings.Contains line "HYPE[" = false).
  { unfold line. cbn [GoStrings.Contains]. now rewrite Hhype. }
  unfold convert. fold (linesOf line).
  rewrite linesOf_line2 by (apply Hno; [reflexivity..|assumption]).
  cbn [convertLines]. unfold bind at 1 2.
  assert (Hline : convertLine ReadFile (Locals LastLine.neither "" ∅) line g
                  = (Ok (Locals LastLine.comment (body +:+ NL) ∅), g)).
  { unfold convertLine.
    rewrite isDirective_prefix. change (GoStrings.HasPrefix line "//go:") with false.
    cbv iota. unfold bind, isInComment. unfold FindString at 1.
    unfold line at 1. rewrite search_comment_delim.
    change (nonempty (GoStrings.slice line 0 (pos (Cursor 3 body []))))
      with true. cbv iota.
    unfold commentLine. cbn [lastLine LastLine.eqb out media].
    unfold extractMediaPath, replaceHypeTag, FindStringSubmatch.
    unfold imageTag, imagePtrn, hypeTag, hypePtrn.
    rewrite !search_needs_lit by assumption.
    cbn [length Nat.eqb GoStrings.Trim GoStrings.TrimLeft GoStrings.TrimRight
         nonempty String.eqb negb andb].
    unfold line. rewrite (strip_line_comment _ Hstar).
    rewrite andb_false_r. reflexivity. }
  rewrite Hline. reflexivity.
Qed.

End LineComment.

Lemma C9_line_comment_text_witness :
  GoStrings.ContainsAny "  Hello text!" [LF; CR] = false
  /\ GoStrings.Contains "  Hello text!" "*/" = false
  /\ GoStrings.Contains "  Hello text!" "![" = false
  /\ GoStrings.Contains "  Hello text!" "HYPE[" = false
  /\ convert noFiles "//   Hello text!" commentFinder
     = (Ok ("  Hello text!" +:+ NL, ∅), commentFinder).
Proof.
  repeat (split; [reflexivity|]).
  apply (C9_line_comment_text noFiles "  Hello text!" commentFinder);
    reflexivity.
Defined.

(** The line of the claim. *)
Example line_comment_text :
  convert noFiles "// text" commentFinder = (Ok ("text" +:+ NL, ∅), false).
Proof. vm_compute. reflexivity. Qed.

(** More than one space after the delimiter: the others are kept. *)
Example line_comment_extra_spaces :
  convert noFiles "//   text" commentFinder = (Ok ("  text" +:+ NL, ∅), false).
Proof. vm_compute. reflexivity. Qed.

Section Captures.

(** Greedy iteration never moves the cursor back. *)
Lemma iterate_pos (step : cursor -> list cursor) (fuel : nat) (x y : cursor) :
  In y (iterate step fuel x) -> pos x <= pos y.
Proof.
  revert x; induction fuel as [|f IH]; intros x; cbn [iterate].
  - intros [<-|[]]. lia.
  - rewrite in_app_iff, in_flat_map. intros [(z & _ & Hz)|[<-|[]]]; [|lia].
    destruct (pos x <? pos z)%nat eqn:E; [|contradiction].
    apply Nat.ltb_lt in E. apply IH in Hz. lia.
Qed.

(** What a step leaves alone, its iteration leaves alone. *)
Lemma iterate_keeps {A : Type} (f : cursor -> A) (step : cursor -> list cursor) :
  (forall x y, In y (step x) -> f y = f x) ->
  forall fuel x y, In y (iterate step fuel x) -> f y = f x.
Proof.
  intros Hstep fuel; induction fuel as [|n IH]; intros x y; cbn [iterate].
  - now intros [<-|[]].
  - rewrite in_app_iff, in_flat_map. intros [(z & Hz & Hy)|[<-|[]]]; [|reflexivity].
    destruct (pos x <? pos z)%nat; [|contradiction].
    rewrite (IH _ _ Hy). now apply Hstep.
Qed.

(** A pattern does not touch the groups beyond its [NumSubexp]. *)
Lemma exec_keeps_caps (r : regex) (n : nat) :
  NumSubexp r < n ->
  forall x y, In y (exec r x) -> lookup_cap n (caps y) = lookup_cap n (caps x).
Proof.
  induction r as [| |k|s|a IHa b IHb|a IHa b IHb|a IHa|a IHa|a IHa|m a IHa];
    cbn [NumSubexp]; intros Hn x y; cbn [exec].
  - destruct (pos x =? 0)%nat; [intros [<-|[]] | intros []]; reflexivity.
  - destruct (rest x); [intros [<-|[]] | intros []]; reflexivity.
  - destruct (rest x) as [|c t]; [intros []|].
    destruct (in_class k c); [intros [<-|[]] | intros []]; reflexivity.
  - destruct (GoStrings.HasPrefix (rest x) s); [intros [<-|[]] | intros []].
    reflexivity.
  - rewrite in_flat_map. intros (z & Hz & Hy).
    rewrite (IHb ltac:(lia) _ _ Hy). apply IHa; [lia | assumption].
  - rewrite in_app_iff. intros [H|H]; [apply IHa | apply IHb]; (lia || assumption).
  - apply (iterate_keeps (fun c => lookup_cap n (caps c))). now apply IHa.
  - rewrite in_flat_map. intros (z & Hz & Hy).
    rewrite (iterate_keeps (fun c => lookup_cap n (caps c)) (exec a)
               (IHa Hn) _ _ _ Hy).
    now apply IHa.
  - rewrite in_app_iff. intros [H|[<-|[]]]; [now apply IHa | reflexivity].
  - rewrite in_map_iff. intros (z & <- & Hz). cbn [caps lookup_cap].
    replace (n =? m)%nat with false by (symmetry; apply Nat.eqb_neq; lia).
    apply IHa; [lia | assumption].
Qed.

(** A group around [k+] captures at least one character. *)
Lemma exec_Cap_Plus_Cls (n : nat) (k : cclass) (x y : cursor) :
  In y (exec (Cap n (Plus (Cls k))) x) -> lookup_cap n (caps y) <> "".
Proof.
  cbn [exec]. rewrite in_map_iff. intros (z & <- & Hz).
  cbn [caps lookup_cap]. rewrite Nat.eqb_refl.
  apply in_flat_map in Hz as (w & Hw & Hz). apply iterate_pos in Hz.
  destruct (rest x) as [|c t]; [contradiction|].
  destruct (in_class k c); [|contradiction].
  destruct Hw as [<-|[]]. cbn [advance pos] in Hz.
  replace (pos z - pos x) with (S (pos z - pos x - 1)) by lia.
  discriminate.
Qed.

Lemma exec_Seq_In (a b : regex) (x y : cursor) :
  In y (exec (Seq a b) x) -> exists z, In z (exec a x) /\ In y (exec b z).
Proof. cbn [exec]. now rewrite in_flat_map. Qed.

(** Every match of [imagePtrn] has a non-empty group 1. *)
Lemma imagePtrn_group (x y : cursor) :
  In y (exec imagePtrn x) -> lookup_cap 1 (caps y) <> "".
Proof.
  unfold imagePtrn. intros H.
  do 5 (apply exec_Seq_In in H as (? & _ & H)).
  apply exec_Seq_In in H as (z & Hz & H).
  pose proof (fun Hlt => exec_keeps_caps _ 1 Hlt _ _ H) as E.
  rewrite E by (cbn; lia).
  now apply exec_Cap_Plus_Cls in Hz.
Qed.

(** The match that [search] reports is one that [exec] lists. *)
Lemma search_In (r : regex) (s : string) (p a0 : nat) (y : cursor) :
  search r p s = Some (a0, y) -> exists x, In y (exec r x).
Proof.
  revert p; induction s as [|c s IH]; intros p; cbn [search];
    destruct (exec r _) as [|y' ys] eqn:E.
  - discriminate.
  - intros [= <- <-]. eexists. rewrite E. now left.
  - apply IH.
  - intros [= <- <-]. eexists. rewrite E. now left.
Qed.

Lemma imageTag_submatch (line : string) :
  FindStringSubmatch imageTag line = []
  \/ exists m0 m1, FindStringSubmatch imageTag line = [m0; m1] /\ m1 <> "".
Proof.
  unfold FindStringSubmatch.
  destruct (search imageTag 0 line) as [[a0 y]|] eqn:E; [right | now left].
  apply search_In in E as (x & Hy). apply imagePtrn_group in Hy.
  eexists _, _. split; [reflexivity | exact Hy].
Qed.

(** C10: [extractMediaPath] returns no error, whatever the line.  The
    result of [FindStringSubmatch] for [imageTag] is empty or holds the
    match and a non-empty group 1; it never has length 1. *)
Theorem C10_extractMediaPath_never_fails (line : string) :
  (exists path, extractMediaPath line = Ok path)
  /\ length (FindStringSubmatch imageTag line) <> 1
  /\ (FindStringSubmatch imageTag line = []
      \/ exists m0 m1,
           FindStringSubmatch imageTag line = [m0; m1] /\ m1 <> "").
Proof.
  pose proof (imageTag_submatch line) as H.
  split; [|split; [|exact H]]; unfold extractMediaPath;
    destruct H as [->|(m0 & m1 & -> & _)]; cbn; eauto.
Qed.

End Captures.

Section MediaSet.

Variable ReadFile : string -> result string.

Lemma nonempty_true (s : string) : nonempty s = true -> s <> "".
Proof. unfold nonempty. now intros H%negb_true_iff%String.eqb_neq. Qed.

Lemma convertLine_no_empty_path (l l' : locals) (line : string) (g g' : bool) :
  "" ∉ media l ->
  convertLine ReadFile l line g = (Ok l', g') ->
  "" ∉ media l'.
Proof.
  intros Hl. unfold convertLine. destruct (isDirective line).
  { now intros [= <- _]. }
  unfold bind. destruct (isInComment line g) as [[[|]|e] g1]; [| |discriminate].
  - unfold commentLine.
    destruct (extractMediaPath line) as [path|e]; [|discriminate].
    destruct (replaceHypeTag ReadFile line) as [[repl path']|e]; [|discriminate].
    assert (H1 : "" ∉ (if nonempty path then {[path]} ∪ media l else media l)).
    { destruct (nonempty path) eqn:E; [|assumption].
      apply nonempty_true in E.
      intros [Hp%elem_of_singleton|Hm]%elem_of_union; congruence || auto. }
    destruct (nonempty repl && nonempty path')%bool eqn:E;
      intros Heq; injection Heq as <- _; cbn [media]; [|assumption].
    apply andb_true_iff in E as [_ E%nonempty_true].
    intros [Hp%elem_of_singleton|Hm]%elem_of_union; congruence || auto.
  - unfold codeLine.
    destruct (_ && _)%bool; intros Heq; now injection Heq as <- _.
Qed.

Lemma convertLines_no_empty_path (lines : list string) (l l' : locals)
      (g g' : bool) :
  "" ∉ media l ->
  convertLines ReadFile l lines g = (Ok l', g') ->
  "" ∉ media l'.
Proof.
  revert l g; induction lines as [|line lines IH]; intros l g Hl;
    cbn [convertLines].
  - now intros [= <- _].
  - unfold bind.
    destruct (convertLine ReadFile l line g) as [[l1|e] g1] eqn:E;
      [|discriminate].
    apply IH. eapply convertLine_no_empty_path; eassumption.
Qed.

(** X12: the parts of the media-set invariant that hold for every input: the
    set has no empty path, and its elements are listed once. *)
Lemma media_no_empty_path (input out : string) (m : gset string) (g g' : bool) :
  convert ReadFile input g = (Ok (out, m), g') ->
  ("" ∉ m) /\ NoDup (elements m).
Proof.
  unfold convert, bind.
  destruct (convertLines _ _ _ g) as [[l|e] g1] eqn:E; [|discriminate].
  apply convertLines_no_empty_path in E; [|apply not_elem_of_empty].
  destruct (LastLine.eqb _ _); intros [= _ <- _];
    (split; [assumption | apply NoDup_elements]).
Qed.

End MediaSet.

(* ===================================================================== *)
(** * The image tags listed in the source

    The source lists the tags [imageTag] "should properly match"; a tag
    inside back quotes is not to be taken for an image. *)

Example imageTag_plain :
  extractMediaPath "// ![Alt text](gotomarkdown_animation.gif)"
  = Ok "gotomarkdown_animation.gif".
Proof. reflexivity. Qed.

Example imageTag_quoted_is_skipped :
  extractMediaPath "// `![Alt text](gotomarkdown_animation.gif)`" = Ok "".
Proof. reflexivity. Qed.

Example imageTag_with_title :
  extractMediaPath
    ("// ![Alt text](gotomarkdown image.jpg " +:+ String DQUOTE ("Title" +:+ String DQUOTE ")"))
  = Ok "gotomarkdown image.jpg".
Proof. reflexivity. Qed.

(** A block comment over three lines: the delimiters go, the flag is on
    between them and off after them. *)
Example block_comment_three_lines :
  convert noFiles ("/* a" +:+ NL +:+ "b" +:+ NL +:+ "c */") commentFinder
  = (Ok ("a" +:+ NL +:+ "b" +:+ NL +:+ "c" +:+ NL, ∅), false).
Proof. vm_compute. reflexivity. Qed.

(* ===================================================================== *)
(** * What the comment patterns mean *)

Section PatternMeaning.

(** No pattern moves the cursor back. *)
Lemma exec_pos (r : regex) (x y : cursor) :
  In y (exec r x) -> pos x <= pos y.
Proof.
  revert x y.
  induction r as [| |k|s|a IHa b IHb|a IHa b IHb|a IHa|a IHa|a IHa|m a IHa];
    intros x y; cbn [exec].
  - destruct (pos x =? 0)%nat; [intros [<-|[]]; lia | intros []].
  - destruct (rest x); [intros [<-|[]]; lia | intros []].
  - destruct (rest x) as [|c t]; [intros []|].
    destruct (in_class k c); [intros [<-|[]]; cbn; lia | intros []].
  - destruct (GoStrings.HasPrefix (rest x) s); [intros [<-|[]]; cbn; lia | intros []].
  - rewrite in_flat_map. intros (z & Hz & Hy).
    apply IHa in Hz. apply IHb in Hy. lia.
  - rewrite in_app_iff. intros [H|H]; [now apply IHa | now apply IHb].
  - apply iterate_pos.
  - rewrite in_flat_map. intros (z & Hz & Hy).
    apply IHa in Hz. apply iterate_pos in Hy. lia.
  - rewrite in_app_iff. intros [H|[<-|[]]]; [now apply IHa | lia].
  - rewrite in_map_iff. intros (z & <- & Hz). cbn [pos]. now apply IHa.
Qed.

(** A literal in a sequence moves the cursor by its length. *)
Lemma exec_Lit_pos (a b : regex) (lit : string) (x y : cursor) :
  In y (exec (Seq a (Seq (Lit lit) b)) x) ->
  pos x + String.length lit <= pos y.
Proof.
  intros (z & Hz & H)%exec_Seq_In. apply exec_Seq_In in H as (w & Hw & Hy).
  apply exec_pos in Hz, Hy. cbn [exec] in Hw.
  destruct (GoStrings.HasPrefix (rest z) lit); [|contradiction].
  destruct Hw as [<-|[]]. cbn [advance pos] in Hy. lia.
Qed.

(** Where [search] finds its match. *)
Lemma search_sound (r : regex) (s : string) (p a0 : nat) (y : cursor) :
  search r p s = Some (a0, y) ->
  exists k, a0 = p + k
            /\ In y (exec r (Cursor a0 (GoStrings.drop k s) [])).
Proof.
  revert p; induction s as [|c s IH]; intros p; cbn [search];
    destruct (exec r (Cursor p _ [])) as [|y' ys] eqn:E.
  - discriminate.
  - intros [= <- <-]. exists 0. rewrite Nat.add_0_r. cbn. rewrite E. auto with datatypes.
  - intros (k & -> & Hy)%IH. exists (S k). split; [lia|].
    cbn [GoStrings.drop]. now replace (p + S k) with (S p + k) by lia.
  - intros [= <- <-]. exists 0. rewrite Nat.add_0_r. cbn [GoStrings.drop].
    rewrite E. auto with datatypes.
Qed.

(** A match of positive length in a non-empty rest has a non-empty text. *)
Lemma FindString_nonempty (r : regex) (s : string) (a0 : nat) (y : cursor) :
  search r 0 s = Some (a0, y) ->
  a0 < pos y -> GoStrings.drop a0 s <> "" ->
  nonempty (FindString r s) = true.
Proof.
  intros E Hlt Hne. unfold FindString. rewrite E. unfold GoStrings.slice.
  destruct (GoStrings.drop a0 s) as [|c t]; [contradiction|].
  replace (pos y - a0) with (S (pos y - a0 - 1)) by lia. reflexivity.
Qed.

End PatternMeaning.

Section OpenerPatterns.

Lemma memb_slash : GoStrings.memb "/" wsChars = false.
Proof. reflexivity. Qed.

(** [\s*] followed by a literal that starts with [/]: the white space is
    passed, and the literal is matched where it ends. *)
Lemma exec_ws_lit_some (l : string) (r : regex) (s : string)
      (p : nat) (cs : list (nat * string)) :
  exists q, p <= q
    /\ exec (Seq (Star ws) (Seq (Lit (String "/" l)) r)) (Cursor p s cs)
       = exec (Seq (Lit (String "/" l)) r)
              (Cursor q (GoStrings.TrimLeft s wsChars) cs).
Proof.
  revert p; induction s as [|c s IH]; intros p.
  - exists p. split; [lia | reflexivity].
  - change (exec (Seq (Star ws) ?q) ?x) with (flat_map (exec q) (exec (Star ws) x)).
    unfold ws at 1. rewrite exec_Star_Cls. cbn [in_class GoStrings.TrimLeft].
    destruct (GoStrings.memb c wsChars) eqn:Hc.
    + destruct (IH (p + 1)) as (q & Hq & E). exists q. split; [lia|].
      rewrite flat_map_app. cbn [flat_map]. rewrite app_nil_r.
      change (flat_map (exec ?q) (exec (Star (Cls (OneOf wsChars))) ?x))
        with (exec (Seq (Star ws) q) x).
      rewrite E.
      assert (Hhere : exec (Seq (Lit (String "/" l)) r) (Cursor p (String c s) cs) = []).
      { cbn [exec rest GoStrings.HasPrefix].
        destruct (Ascii.eqb_spec c "/") as [->|_]; [discriminate | reflexivity]. }
      rewrite Hhere. apply app_nil_r.
    + exists p. split; [lia|]. cbn [flat_map]. apply app_nil_r.
Qed.

(** A pattern [^\s*LIT\s?] with [LIT] starting with [/] matches, with a
    non-empty text, the lines that start with [LIT] after white space. *)
Lemma opener_pattern (l : string) (line : string) :
  nonempty (FindString (Seq Bol (Seq (Star ws) (Seq (Lit (String "/" l)) (Opt ws)))) line)
  = startsWith (String "/" l) line.
Proof.
  unfold startsWith.
  destruct (GoStrings.HasPrefix _ _) eqn:E.
  - destruct (exec_ws_lit_some l (Opt ws) line 0 []) as (q & _ & Hq).
    destruct (exec (Seq (Star ws) (Seq (Lit (String "/" l)) (Opt ws)))
                   (Cursor 0 line [])) as [|y ys] eqn:Ey.
    + exfalso. symmetry in Hq. cbn [exec rest] in Hq. rewrite E in Hq.
      cbn [flat_map] in Hq. rewrite app_nil_r in Hq.
      now apply app_eq_nil in Hq as [_ [=]].
    + apply (FindString_nonempty _ _ 0 y).
      * rewrite search_Bol. now rewrite Ey.
      * assert (In y (exec (Seq (Star ws) (Seq (Lit (String "/" l)) (Opt ws)))
                           (Cursor 0 line []))) as Hin by (rewrite Ey; now left).
        apply exec_Lit_pos in Hin. cbn in Hin. lia.
      * cbn [GoStrings.drop]. intros ->. discriminate.
  - unfold FindString. rewrite search_Bol.
    now rewrite exec_ws_lit_none by (apply memb_slash || assumption).
Qed.

Lemma comment_pattern (line : string) :
  nonempty (FindString comment line) = startsWith "//" line.
Proof. apply (opener_pattern "/"). Qed.

Lemma commentStart_pattern (line : string) :
  nonempty (FindString commentStart line) = startsWith "/*" line.
Proof. apply (opener_pattern "*"). Qed.

End OpenerPatterns.

Section CloserPattern.

(** [\s*$]: the rest of the text is white space. *)
Lemma exec_ws_Eol (s : string) (p : nat) (cs : list (nat * string)) :
  exec (Seq (Star ws) Eol) (Cursor p s cs)
  = if allIn wsChars s then [Cursor (p + String.length s) "" cs] else [].
Proof.
  revert p; induction s as [|c s IH]; intros p.
  - cbn. now rewrite Nat.add_0_r.
  - change (exec (Seq (Star ws) ?q) ?x) with (flat_map (exec q) (exec (Star ws) x)).
    unfold ws at 1. rewrite exec_Star_Cls. cbn [in_class allIn].
    destruct (GoStrings.memb c wsChars); [|reflexivity].
    rewrite flat_map_app.
    change (flat_map (exec Eol) [Cursor p (String c s) cs]) with (@nil cursor).
    rewrite app_nil_r.
    change (flat_map (exec ?q) (exec (Star (Cls (OneOf wsChars))) ?x))
      with (exec (Seq (Star ws) q) x).
    rewrite IH. cbn [andb String.length].
    now replace (p + 1 + String.length s) with (p + S (String.length s)) by lia.
Qed.

(** [\*/\s*$] at the cursor. *)
Lemma exec_closer_here (s : string) (p : nat) (cs : list (nat * string)) :
  exec (Seq (Lit "*/") (Seq (Star ws) Eol)) (Cursor p s cs)
  = if GoStrings.HasPrefix s "*/" && allIn wsChars (GoStrings.drop 2 s)
    then [Cursor (p + 2 + String.length (GoStrings.drop 2 s)) "" cs]
    else [].
Proof.
  change (exec (Seq (Lit ?l) ?q) ?x)
    with (flat_map (exec q)
            (if GoStrings.HasPrefix (rest x) l
             then [advance (String.length l) x] else [])).
  cbn [rest]. destruct (GoStrings.HasPrefix s "*/"); [|reflexivity].
  cbn [flat_map String.length andb]. unfold advance. cbn [pos rest caps].
  rewrite exec_ws_Eol, app_nil_r. reflexivity.
Qed.

(** [commentEnd] at the cursor: a closer here, or after one white space. *)
Lemma exec_commentEnd (s : string) (p : nat) (cs : list (nat * string)) :
  exec commentEndPtrn (Cursor p s cs)
  = match s with
    | String c t =>
        if GoStrings.memb c wsChars
        then exec (Seq (Lit "*/") (Seq (Star ws) Eol)) (Cursor (p + 1) t cs)
        else []
    | EmptyString => []
    end
    ++ exec (Seq (Lit "*/") (Seq (Star ws) Eol)) (Cursor p s cs).
Proof.
  unfold commentEndPtrn.
  change (exec (Seq (Opt ws) ?q) ?x) with (flat_map (exec q) (exec ws x ++ [x])).
  rewrite flat_map_app. cbn [flat_map]. rewrite app_nil_r. f_equal.
  destruct s as [|c t]; [reflexivity|].
  change (exec ws ?x) with (if in_class (OneOf wsChars) c then [advance 1 x] else []).
  cbn [in_class]. destruct (GoStrings.memb c wsChars); [|reflexivity].
  cbn [flat_map advance pos rest caps GoStrings.drop]. apply app_nil_r.
Qed.

Lemma closesBlock_cons (c : ascii) (t : string) :
  closesBlock (String c t)
  = (GoStrings.HasPrefix (String c t) "*/" && allIn wsChars (GoStrings.drop 2 (String c t)))
    || closesBlock t.
Proof. reflexivity. Qed.

Lemma closesBlock_here (s : string) :
  GoStrings.HasPrefix s "*/" && allIn wsChars (GoStrings.drop 2 s) = true ->
  closesBlock s = true.
Proof. intros H. destruct s; cbn [closesBlock]; now rewrite H. Qed.

(** [search] finds a closer where [closesBlock] says there is one. *)
Lemma search_commentEnd_none (s : string) (p : nat) :
  closesBlock s = false -> search commentEndPtrn p s = None.
Proof.
  revert p; induction s as [|c s IH]; intros p; [reflexivity|].
  rewrite closesBlock_cons. intros [Hhere Ht]%orb_false_iff.
  cbn [search]. rewrite exec_commentEnd, !exec_closer_here, Hhere.
  assert (Hnext : GoStrings.HasPrefix s "*/" && allIn wsChars (GoStrings.drop 2 s)
                  = false).
  { destruct (GoStrings.HasPrefix s "*/" && allIn wsChars (GoStrings.drop 2 s))
      eqn:E; [|reflexivity].
    apply closesBlock_here in E. congruence. }
  rewrite Hnext. destruct (GoStrings.memb c wsChars); cbn [app]; now apply IH.
Qed.

Lemma search_commentEnd_some (s : string) (p : nat) :
  closesBlock s = true -> search commentEndPtrn p s <> None.
Proof.
  revert p; induction s as [|c s IH]; intros p; [discriminate|].
  rewrite closesBlock_cons. cbn [search].
  destruct (exec commentEndPtrn (Cursor p (String c s) [])) eqn:E; [|discriminate].
  rewrite exec_commentEnd, !exec_closer_here in E.
  apply app_eq_nil in E as [_ E].
  destruct (GoStrings.HasPrefix (String c s) "*/" && _); [discriminate|].
  cbn [orb]. apply IH.
Qed.

Lemma commentEnd_pattern (line : string) :
  nonempty (FindString commentEnd line) = closesBlock line.
Proof.
  destruct (closesBlock line) eqn:E.
  - apply search_commentEnd_some with (p := 0) in E.
    destruct (search commentEndPtrn 0 line) as [[a0 y]|] eqn:Es; [|contradiction].
    apply search_sound in Es as Hs. destruct Hs as (k & -> & Hy).
    apply (FindString_nonempty _ _ (0 + k) y Es).
    + apply exec_Lit_pos in Hy. cbn in Hy. cbn. lia.
    + cbn [Nat.add]. intros Hd. rewrite Hd in Hy. exact Hy.
  - unfold FindString, commentEnd. now rewrite search_commentEnd_none.
Qed.

End CloserPattern.

Section ClassifierMeaning.

Variable ReadFile : string -> result string.

(** X1: the classifier without patterns: a line that starts, after white
    space, with [//] is a comment line and leaves the flag alone; one that
    starts with the opener sets the flag; one in which a closer is followed
    by white space only clears it; any other line is a comment line exactly
    when the flag is on. *)
Theorem isInComment_meaning (line : string) (g : bool) :
  isInComment line g
  = if startsWith "//" line then (Ok true, g)
    else if startsWith "/*" line then (Ok true, true)
    else if closesBlock line then (Ok true, false)
    else (Ok g, g).
Proof.
  unfold isInComment.
  rewrite comment_pattern, commentStart_pattern, commentEnd_pattern.
  destruct (startsWith "//" line), (startsWith "/*" line), (closesBlock line), g;
    reflexivity.
Qed.

Lemma classify_in_block (line : string) :
  closesBlock line = false ->
  exists k, classify line true = (Ok k, true) /\ k <> CodeLine.
Proof.
  intros Hc. unfold classify, bind, isInComment.
  rewrite comment_pattern, commentStart_pattern, commentEnd_pattern, Hc.
  destruct (isDirective line); [eexists; split; [reflexivity | discriminate]|].
  destruct (startsWith "//" line), (startsWith "/*" line);
    (eexists; split; [reflexivity | discriminate]).
Qed.

(** X2: inside a block comment (flag on), as long as no line closes the block,
    no line is a code line and the flag stays on. *)
Theorem open_block_has_no_code (lines : list string) :
  Forall (fun line => closesBlock line = false) lines ->
  exists ks, classifyAll lines true = (Ok ks, true)
             /\ Forall (fun k => k <> CodeLine) ks.
Proof.
  induction 1 as [|line lines Hline _ (ks & E & Hks)].
  - exists []. split; [reflexivity | constructor].
  - destruct (classify_in_block line Hline) as (k & Ek & Hk).
    exists (k :: ks). split; [|now constructor].
    cbn [classifyAll]. unfold bind at 1. rewrite Ek.
    unfold bind at 1. now rewrite E.
Qed.

Lemma TrimLeft_ws_prefix (w s : string) :
  allIn wsChars w = true ->
  GoStrings.TrimLeft (w +:+ s) wsChars = GoStrings.TrimLeft s wsChars.
Proof.
  induction w as [|c w IH]; [reflexivity|].
  cbn [allIn]. intros [Hc Hw]%andb_true_iff.
  rewrite append_cons. cbn [GoStrings.TrimLeft]. rewrite Hc. now apply IH.
Qed.

(** X3: a directive has to start in the first column: with white space in
    front of it, a [//go:] line is not skipped but taken for a comment
    line. *)
Theorem indented_directive_is_a_comment (w text : string) (g : bool) :
  w <> "" -> allIn wsChars w = true ->
  isDirective (w +:+ "//go:" +:+ text) = false
  /\ classify (w +:+ "//go:" +:+ text) g = (Ok CommentLine, g).
Proof.
  intros Hne Hw.
  assert (Hd : isDirective (w +:+ "//go:" +:+ text) = false).
  { rewrite isDirective_prefix. destruct w as [|c w]; [contradiction|].
    cbn [allIn] in Hw. apply andb_true_iff in Hw as [Hc _].
    rewrite append_cons, HasPrefix_cons.
    destruct (Ascii.eqb_spec c "/") as [->|_]; [discriminate | reflexivity]. }
  split; [exact Hd|].
  unfold classify, bind, isInComment. rewrite Hd, comment_pattern.
  unfold startsWith. rewrite (TrimLeft_ws_prefix _ _ Hw). reflexivity.
Qed.

(** Without an opener at its start and without a closer, no delimiter
    pattern matches in a line. *)
Lemma Contains_closesBlock (s : string) :
  GoStrings.Contains s "*/" = false -> closesBlock s = false.
Proof.
  induction s as [|c s IH]; [reflexivity|].
  intros H. rewrite closesBlock_cons.
  rewrite (Contains_here _ _ H). cbn [andb orb].
  apply IH. eapply Contains_tail, H.
Qed.

Lemma search_delims_none (s : string) :
  startsWith "//" s = false -> startsWith "/*" s = false ->
  GoStrings.Contains s "*/" = false ->
  search allCommentDelims 0 s = None.
Proof.
  unfold startsWith. intros H1 H2 H3.
  assert (E : exec allCommentDelims (Cursor 0 s []) = []).
  { unfold allCommentDelims, commentPtrn, commentStartPtrn.
    rewrite !exec_Alt, !exec_Bol_start.
    rewrite !exec_ws_lit_none by (reflexivity || assumption).
    now rewrite exec_commentEnd_none. }
  destruct s as [|c s]; cbn [search]; rewrite E; [reflexivity|].
  apply search_delims_later. eapply Contains_tail, H3.
Qed.

Lemma strip_nothing (s : string) :
  startsWith "//" s = false -> startsWith "/*" s = false ->
  GoStrings.Contains s "*/" = false ->
  ReplaceAllString allCommentDelims s "" = s.
Proof.
  intros H1 H2 H3. unfold ReplaceAllString.
  cbn [replaceAll Nat.leb GoStrings.drop].
  now rewrite search_delims_none.
Qed.

(** X5: a line inside a block comment that has no delimiter and no tag is
    written to the output as it is (after the closing fence, if the line
    before was code), followed by a newline. *)
Theorem block_comment_line_is_copied (l : locals) (line : string) :
  startsWith "//" line = false -> startsWith "/*" line = false ->
  GoStrings.Contains line "*/" = false ->
  GoStrings.Contains line "![" = false ->
  GoStrings.Contains line "HYPE[" = false ->
  convertLine ReadFile l line true
  = (Ok (Locals LastLine.comment
           ((if LastLine.eqb (lastLine l) LastLine.code
             then out l +:+ "```" +:+ NL +:+ NL else out l) +:+ line +:+ NL)
           (media l)), true).
Proof.
  intros H1 H2 H3 H4 H5.
  assert (Hd : isDirective line = false).
  { rewrite isDirective_prefix.
    destruct (GoStrings.HasPrefix line "//go:") eqn:E; [|reflexivity].
    apply HasPrefix_two in E as [t ->]. unfold startsWith in H1.
    cbn [GoStrings.TrimLeft GoStrings.memb existsb wsChars] in H1.
    change (GoStrings.HasPrefix t "" = false) in H1.
    now rewrite HasPrefix_nil in H1. }
  unfold convertLine, bind, isInComment.
  rewrite Hd, comment_pattern, commentStart_pattern, commentEnd_pattern.
  rewrite H1, H2, (Contains_closesBlock _ H3).
  unfold commentLine, extractMediaPath, replaceHypeTag, FindStringSubmatch.
  unfold imageTag, imagePtrn, hypeTag, hypePtrn.
  rewrite !search_needs_lit by assumption.
  cbn [length Nat.eqb GoStrings.Trim GoStrings.TrimLeft GoStrings.TrimRight
       nonempty String.eqb negb].
  rewrite andb_false_r. now rewrite strip_nothing.
Qed.

End ClassifierMeaning.

Lemma indented_directive_is_a_comment_witness :
  "  " <> ""
  /\ allIn wsChars "  " = true
  /\ classify "  //go:generate foo" false = (Ok CommentLine, false).
Proof.
  split; [discriminate|]. split; [reflexivity|].
  apply (indented_directive_is_a_comment "  " "generate foo" false);
    [discriminate | reflexivity].
Defined.

Lemma open_block_has_no_code_witness :
  Forall (fun line => closesBlock line = false) ["x := 1"; ""; "return"]
  /\ exists ks, classifyAll ["x := 1"; ""; "return"] true = (Ok ks, true)
                /\ Forall (fun k => k <> CodeLine) ks.
Proof.
  assert (H : Forall (fun line => closesBlock line = false)
                     ["x := 1"; ""; "return"]) by (repeat constructor).
  split; [exact H|]. exact (open_block_has_no_code _ H).
Defined.

Lemma block_comment_line_is_copied_witness :
  startsWith "//" "title = x" = false
  /\ convertLine noFiles (Locals LastLine.comment "a" ∅) "title = x" true
     = (Ok (Locals LastLine.comment ("a" +:+ "title = x" +:+ NL) ∅), true).
Proof.
  split; [reflexivity|].
  apply (block_comment_line_is_copied noFiles (Locals LastLine.comment "a" ∅)
           "title = x"); reflexivity.
Defined.

Section ConverterShape.

Variable ReadFile : string -> result string.

(** X8: carriage returns are removed before anything else: a carriage return
    anywhere in the input (also inside a line) changes nothing. *)
Theorem convert_ignores_carriage_returns (a b : string) (g : bool) :
  convert ReadFile (a +:+ String CR b) g = convert ReadFile (a +:+ b) g.
Proof.
  unfold convert. rewrite !removeCR_app, removeCR_cons.
  now rewrite Ascii.eqb_refl.
Qed.

(** X7: a run of code lines after a comment line goes into one fence: the
    opening fence is written once, in front of the first line (which is
    not empty), and every line of the run is copied with its newline,
    empty lines included. *)
Theorem code_run_in_one_fence (l : locals) (first : string)
        (others : list string) (g : bool) :
  lastLine l = LastLine.comment ->
  first <> "" ->
  Forall (fun line => classify line g = (Ok CodeLine, g)) (first :: others) ->
  convertLines ReadFile l (first :: others) g
  = (Ok (Locals LastLine.code
           ((out l +:+ NL +:+ "```go" +:+ NL)
              +:+ GoStrings.concat (map (fun line => line +:+ NL) (first :: others)))
           (media l)), g).
Proof.
  intros Hl Hne Hall. inversion Hall as [|? ? Hfirst Hothers]; subst.
  apply classify_code in Hfirst as (Hd & Hc & _).
  cbn [convertLines]. unfold bind at 1.
  assert (E : convertLine ReadFile l first g
              = (Ok (Locals LastLine.code
                       ((out l +:+ NL +:+ "```go" +:+ NL) +:+ first +:+ NL)
                       (media l)), g)).
  { unfold convertLine, bind. rewrite Hd, Hc. unfold codeLine. rewrite Hl.
    destruct first; [contradiction | reflexivity]. }
  rewrite E, convertLines_code by (assumption || discriminate).
  cbn [lastLine out media map]. rewrite concat_cons.
  now rewrite !append_assoc.
Qed.

End ConverterShape.

Lemma code_run_in_one_fence_witness :
  lastLine (Locals LastLine.comment "a" ∅) = LastLine.comment
  /\ convertLines noFiles (Locals LastLine.comment "a" ∅) ["x"; ""; "y"] false
     = (Ok (Locals LastLine.code
              (("a" +:+ NL +:+ "```go" +:+ NL)
                 +:+ "x" +:+ NL +:+ NL +:+ "y" +:+ NL) ∅), false).
Proof.
  split; [reflexivity|].
  apply (code_run_in_one_fence noFiles (Locals LastLine.comment "a" ∅)
           "x" [""; "y"] false);
    [reflexivity | discriminate | repeat constructor].
Defined.

Section HypeTag.

Variable ReadFile : string -> result string.

(** Every match of [hypePtrn] has a non-empty group 1. *)
Lemma hypePtrn_group (x y : cursor) :
  In y (exec hypePtrn x) -> lookup_cap 1 (caps y) <> "".
Proof.
  unfold hypePtrn. intros H.
  do 5 (apply exec_Seq_In in H as (? & _ & H)).
  apply exec_Seq_In in H as (z & Hz & H).
  pose proof (fun Hlt => exec_keeps_caps _ 1 Hlt _ _ H) as E.
  rewrite E by (cbn; lia).
  now apply exec_Cap_Plus_Cls in Hz.
Qed.

Lemma hypeTag_submatch (line : string) :
  FindStringSubmatch hypeTag line = []
  \/ exists m0 m1, FindStringSubmatch hypeTag line = [m0; m1] /\ m1 <> "".
Proof.
  unfold FindStringSubmatch.
  destruct (search hypeTag 0 line) as [[a0 y]|] eqn:E; [right | now left].
  apply search_In in E as (x & Hy). apply hypePtrn_group in Hy.
  eexists _, _. split; [reflexivity | exact Hy].
Qed.

(** Replacing in a non-empty text with a non-empty replacement leaves a
    non-empty text. *)
Lemma ReplaceAll_nonempty (s old new : string) :
  s <> "" -> new <> "" -> GoStrings.ReplaceAll s old new <> "".
Proof.
  intros Hs Hn. destruct s as [|c s]; [contradiction|].
  unfold GoStrings.ReplaceAll. cbn [GoStrings.Replace_go].
  destruct (GoStrings.HasPrefix (String c s) old); [|discriminate].
  destruct new; [contradiction | discriminate].
Qed.

Lemma snippetOf_nonempty (content : string) : nonempty (snippetOf content) = true.
Proof.
  unfold snippetOf. destruct (snippetLoop _ _ _); reflexivity.
Qed.

Lemma nonempty_intro (s : string) : s <> "" -> nonempty s = true.
Proof. now destruct s. Qed.

(** The two outcomes of [replaceHypeTag]: no tag, and the line comes back
    with an empty path; or a tag with a non-empty path, and the result is
    that of reading the file at the path. *)
Lemma replaceHypeTag_cases (line : string) :
  (FindStringSubmatch hypeTag line = []
   /\ replaceHypeTag ReadFile line = Ok (line, ""))
  \/ (exists m0 path,
        FindStringSubmatch hypeTag line = [m0; path] /\ path <> ""
        /\ replaceHypeTag ReadFile line
           = match ReadFile path with
             | Err e => Err ("Unable to open Hype file " +:+ path +:+ NL +:+ e)
             | Ok content =>
                 Ok (snippetOf content,
                     GoStrings.ReplaceAll path ".html" ".hyperesources")
             end).
Proof.
  unfold replaceHypeTag, getHTMLSnippet.
  destruct (hypeTag_submatch line) as [E|(m0 & m1 & E & Hne)]; rewrite E.
  - now left.
  - right. exists m0, m1. repeat split; [assumption|].
    cbn [length Nat.eqb nth]. now destruct (ReadFile m1).
Qed.

(** X14: a comment line with a Hype tag whose file can be read is replaced as a
    whole: the output gets the snippet of the file and nothing of the
    line's own text, and the media set gets the resources directory (the
    path with [.html] replaced by [.hyperesources]) besides the path of an
    image tag of the line, if there is one. *)
Theorem hype_line_becomes_snippet (l : locals) (line m0 path content : string)
        (g : bool) :
  FindStringSubmatch hypeTag line = [m0; path] ->
  ReadFile path = Ok content ->
  exists image,
    extractMediaPath line = Ok image
    /\ commentLine ReadFile l line g
       = (Ok (Locals LastLine.comment
                ((if LastLine.eqb (lastLine l) LastLine.code
                  then out l +:+ "```" +:+ NL +:+ NL else out l)
                   +:+ snippetOf content)
                ({[GoStrings.ReplaceAll path ".html" ".hyperesources"]}
                   ∪ (if nonempty image then {[image]} ∪ media l else media l))),
          g).
Proof.
  intros Hm Hread. unfold commentLine.
  destruct (replaceHypeTag_cases line) as [[E _]|(n0 & p & E & Hp & ->)];
    [congruence|].
  rewrite Hm in E. injection E as <- <-. rewrite Hread.
  rewrite snippetOf_nonempty,
    (nonempty_intro _ (ReplaceAll_nonempty _ ".html" ".hyperesources" Hp
                         ltac:(discriminate))).
  cbn [andb].
  destruct (imageTag_submatch line) as [Ei|(i0 & i1 & Ei & _)];
    unfold extractMediaPath; rewrite Ei; cbn [length Nat.eqb nth];
    eexists; (split; [reflexivity|]); reflexivity.
Qed.

(** The only error of a round of the loop: the file of a Hype tag cannot
    be read. *)
Lemma convertLine_error (l : locals) (line msg : string) (g g' : bool) :
  convertLine ReadFile l line g = (Err msg, g') ->
  exists m0 path e,
    FindStringSubmatch hypeTag line = [m0; path]
    /\ ReadFile path = Err e
    /\ msg = "Failed generating Hype tag from line " +:+ line +:+ NL
             +:+ "Unable to open Hype file " +:+ path +:+ NL +:+ e.
Proof.
  unfold convertLine. destruct (isDirective line); [discriminate|].
  unfold bind. destruct (isInComment_total line g) as (b & g1 & ->).
  destruct b.
  - unfold commentLine.
    destruct (imageTag_submatch line) as [Ei|(i0 & i1 & Ei & _)];
      unfold extractMediaPath; rewrite Ei; cbn [length Nat.eqb nth];
      (destruct (replaceHypeTag_cases line) as [[_ ->]|(m0 & p & E & _ & ->)];
       [cbn [nonempty String.eqb negb andb]; rewrite ?andb_false_r;
        unfold ret; discriminate|]);
      (destruct (ReadFile p) as [content|e] eqn:Er;
       [destruct (nonempty (snippetOf content) && _)%bool; unfold ret; discriminate|]);
      unfold fail; intros Heq; injection Heq as <- _; exists m0, p, e; auto.
  - unfold codeLine. destruct (_ && _)%bool; discriminate.
Qed.

Lemma convertLines_error (lines : list string) (l : locals) (msg : string)
      (g g' : bool) :
  convertLines ReadFile l lines g = (Err msg, g') ->
  exists line m0 path e,
    In line lines
    /\ FindStringSubmatch hypeTag line = [m0; path]
    /\ ReadFile path = Err e
    /\ msg = "Failed generating Hype tag from line " +:+ line +:+ NL
             +:+ "Unable to open Hype file " +:+ path +:+ NL +:+ e.
Proof.
  revert l g; induction lines as [|line lines IH]; intros l g;
    cbn [convertLines]; [discriminate|].
  unfold bind. destruct (convertLine ReadFile l line g) as [[l1|e1] g1] eqn:E.
  - intros (line' & m0 & p & e & Hin & H)%IH.
    exists line', m0, p, e. split; [now right | exact H].
  - intros Heq; injection Heq as <- _.
    apply convertLine_error in E as (m0 & p & e & H).
    exists line, m0, p, e. split; [now left | exact H].
Qed.

(** X15: [convert] fails for one reason only: a line of the input has a Hype tag
    whose file cannot be read.  The message names the line and the path
    and ends with the error of the read. *)
Theorem convert_error_cause (input msg : string) (g g' : bool) :
  convert ReadFile input g = (Err msg, g') ->
  exists line m0 path e,
    In line (linesOf input)
    /\ FindStringSubmatch hypeTag line = [m0; path]
    /\ ReadFile path = Err e
    /\ msg = "Failed generating Hype tag from line " +:+ line +:+ NL
             +:+ "Unable to open Hype file " +:+ path +:+ NL +:+ e.
Proof.
  unfold convert, bind. fold (linesOf input).
  destruct (convertLines _ _ _ g) as [[l|e] g1] eqn:E.
  - destruct (LastLine.eqb _ _); discriminate.
  - intros Heq; injection Heq as <- _. now apply convertLines_error in E.
Qed.

(** X16: where every file can be read, [convert] returns a result for every
    input. *)
Theorem convert_succeeds_with_readable_files (input : string) (g : bool) :
  (forall path, exists content, ReadFile path = Ok content) ->
  exists out m g', convert ReadFile input g = (Ok (out, m), g').
Proof.
  intros Hfs. unfold convert, bind. fold (linesOf input).
  destruct (convertLines _ _ _ g) as [[l|e] g1] eqn:E.
  - destruct (LastLine.eqb _ _); eauto.
  - apply convertLines_error in E as (line & m0 & p & e' & _ & _ & Hr & _).
    destruct (Hfs p) as [c Hc]. congruence.
Qed.

End HypeTag.

Lemma hype_line_becomes_snippet_witness :
  FindStringSubmatch hypeTag "// HYPE[d](a.html)" = [" HYPE[d](a.html)"; "a.html"]
  /\ commentLine (fun _ => Ok tabbedSnippetFile) (Locals LastLine.neither "" ∅)
       "// HYPE[d](a.html)" false
     = (Ok (Locals LastLine.comment ("<div>" +:+ NL +:+ NL) {["a.hyperesources"]}),
        false).
Proof.
  split; [reflexivity|].
  destruct (hype_line_becomes_snippet (fun _ => Ok tabbedSnippetFile)
              (Locals LastLine.neither "" ∅) "// HYPE[d](a.html)"
              " HYPE[d](a.html)" "a.html" tabbedSnippetFile false
              eq_refl eq_refl) as (image & Hi & ->).
  injection Hi as <-. vm_compute. reflexivity.
Defined.

Lemma convert_error_cause_witness :
  convert noFiles "// HYPE[d](a.html)" false
    = (Err ("Failed generating Hype tag from line // HYPE[d](a.html)" +:+ NL
              +:+ "Unable to open Hype file a.html" +:+ NL +:+ "no such file"),
       false)
  /\ exists line m0 path e,
       In line (linesOf "// HYPE[d](a.html)")
       /\ FindStringSubmatch hypeTag line = [m0; path]
       /\ noFiles path = Err e.
Proof.
  split; [reflexivity|].
  destruct (convert_error_cause noFiles "// HYPE[d](a.html)" _ false false eq_refl)
    as (line & m0 & path & e & H1 & H2 & H3 & _).
  exists line, m0, path, e. auto.
Defined.

Lemma convert_succeeds_with_readable_files_witness :
  (forall path, exists content, emptyFiles path = Ok content)
  /\ exists out m g', convert emptyFiles hypeLine false = (Ok (out, m), g').
Proof.
  assert (H : forall path, exists content, emptyFiles path = Ok content)
    by (intros path; exists ""; reflexivity).
  split; [exact H|]. exact (convert_succeeds_with_readable_files emptyFiles hypeLine false H).
Defined.

Section ImagePath.

(** [strings.Trim] leaves nothing to trim. *)
Lemma TrimRight_idem (s : string) (cs : list ascii) :
  GoStrings.TrimRight (GoStrings.TrimRight s cs) cs = GoStrings.TrimRight s cs.
Proof.
  induction s as [|c s IH]; [reflexivity|].
  cbn [GoStrings.TrimRight].
  destruct (GoStrings.TrimRight s cs) as [|d u] eqn:E.
  - destruct (GoStrings.memb c cs) eqn:Hc; [reflexivity|].
    cbn [GoStrings.TrimRight]. now rewrite Hc.
  - cbn [GoStrings.TrimRight] in IH |- *. now rewrite IH.
Qed.

Lemma TrimLeft_head (s : string) (cs : list ascii) :
  match GoStrings.TrimLeft s cs with
  | EmptyString => True
  | String c _ => GoStrings.memb c cs = false
  end.
Proof.
  induction s as [|c s IH]; [exact I|].
  cbn [GoStrings.TrimLeft]. destruct (GoStrings.memb c cs) eqn:E; [exact IH | exact E].
Qed.

Lemma TrimRight_head (s : string) (cs : list ascii) :
  match s with
  | EmptyString => True
  | String c _ => GoStrings.memb c cs = false
  end ->
  GoStrings.TrimLeft (GoStrings.TrimRight s cs) cs = GoStrings.TrimRight s cs.
Proof.
  destruct s as [|c s]; [reflexivity|]. intros Hc.
  cbn [GoStrings.TrimRight].
  destruct (GoStrings.TrimRight s cs); rewrite ?Hc;
    cbn [GoStrings.TrimLeft]; now rewrite Hc.
Qed.

Lemma Trim_idem (s : string) (cs : list ascii) :
  GoStrings.Trim (GoStrings.Trim s cs) cs = GoStrings.Trim s cs.
Proof.
  unfold GoStrings.Trim.
  rewrite (TrimRight_head _ _ (TrimLeft_head s cs)). apply TrimRight_idem.
Qed.

(** Trimming adds no character. *)
Lemma TrimLeft_ContainsAny (s : string) (cut cs : list ascii) :
  GoStrings.ContainsAny s cs = false ->
  GoStrings.ContainsAny (GoStrings.TrimLeft s cut) cs = false.
Proof.
  induction s as [|c s IH]; [reflexivity|]. intros H.
  cbn [GoStrings.TrimLeft]. destruct (GoStrings.memb c cut); [|exact H].
  cbn [GoStrings.ContainsAny] in H. apply orb_false_iff in H as [_ H]. auto.
Qed.

Lemma TrimRight_ContainsAny (s : string) (cut cs : list ascii) :
  GoStrings.ContainsAny s cs = false ->
  GoStrings.ContainsAny (GoStrings.TrimRight s cut) cs = false.
Proof.
  induction s as [|c s IH]; [reflexivity|].
  cbn [GoStrings.ContainsAny]. intros [Hc Hs]%orb_false_iff.
  cbn [GoStrings.TrimRight]. specialize (IH Hs).
  destruct (GoStrings.TrimRight s cut).
  - destruct (GoStrings.memb c cut); [reflexivity|].
    cbn [GoStrings.ContainsAny]. now rewrite Hc.
  - cbn [GoStrings.ContainsAny] in IH |- *. now rewrite Hc, IH.
Qed.

(** What [k*] passes, for a class [[^...]], holds none of the excluded
    characters. *)
Lemma iterate_NoneOf_text (cs : list ascii) (fuel : nat) (x y : cursor) :
  In y (iterate (exec (Cls (NoneOf cs))) fuel x) ->
  exists n, pos y = pos x + n
            /\ GoStrings.ContainsAny (GoStrings.take n (rest x)) cs = false.
Proof.
  revert x; induction fuel as [|f IH]; intros x; cbn [iterate].
  - intros [<-|[]]. exists 0. now rewrite Nat.add_0_r.
  - rewrite in_app_iff, in_flat_map. intros [(z & Hz & Hy)|[<-|[]]].
    + destruct (pos x <? pos z)%nat; [|contradiction].
      cbn [exec] in Hz. destruct (rest x) as [|c t] eqn:Er; [contradiction|].
      cbn [in_class] in Hz. destruct (GoStrings.memb c cs) eqn:Hc; [contradiction|].
      destruct Hz as [<-|[]]. apply IH in Hy as (m & Hp & Ht).
      cbn [advance pos rest] in Hp, Ht. rewrite Er in Ht. cbn [GoStrings.drop] in Ht.
      exists (S m). split; [lia|].
      cbn [GoStrings.take GoStrings.ContainsAny]. now rewrite Hc, Ht.
    + exists 0. now rewrite Nat.add_0_r.
Qed.

Lemma exec_Cap_NoneOf_text (n : nat) (cs : list ascii) (x y : cursor) :
  In y (exec (Cap n (Plus (Cls (NoneOf cs)))) x) ->
  GoStrings.ContainsAny (lookup_cap n (caps y)) cs = false.
Proof.
  cbn [exec]. rewrite in_map_iff. intros (z & <- & Hz).
  cbn [caps lookup_cap]. rewrite Nat.eqb_refl.
  apply in_flat_map in Hz as (w & Hw & Hz).
  destruct (rest x) as [|c t] eqn:Er; [contradiction|].
  cbn [in_class] in Hw. destruct (GoStrings.memb c cs) eqn:Hc; [contradiction|].
  destruct Hw as [<-|[]]. apply iterate_NoneOf_text in Hz as (m & Hp & Ht).
  cbn [advance pos rest] in Hp, Ht. rewrite Er in Ht. cbn [GoStrings.drop] in Ht.
  replace (pos z - pos x) with (S m) by lia.
  cbn [GoStrings.take GoStrings.ContainsAny]. now rewrite Hc, Ht.
Qed.

Lemma imagePtrn_group_text (x y : cursor) :
  In y (exec imagePtrn x) ->
  GoStrings.ContainsAny (lookup_cap 1 (caps y)) [DQUOTE; ")"%char] = false.
Proof.
  unfold imagePtrn. intros H.
  do 5 (apply exec_Seq_In in H as (? & _ & H)).
  apply exec_Seq_In in H as (z & Hz & H).
  pose proof (fun Hlt => exec_keeps_caps _ 1 Hlt _ _ H) as E.
  rewrite E by (cbn; lia).
  now apply exec_Cap_NoneOf_text in Hz.
Qed.

(** X11: the path of an image tag, as [extractMediaPath] returns it, has no
    space or tab at either end and holds no double quote and no closing
    parenthesis. *)
Theorem image_path_is_trimmed (line path : string) :
  extractMediaPath line = Ok path ->
  GoStrings.Trim path [SP; TAB] = path
  /\ GoStrings.ContainsAny path [DQUOTE; ")"%char] = false.
Proof.
  unfold extractMediaPath, FindStringSubmatch.
  destruct (search imageTag 0 line) as [[a0 y]|] eqn:E.
  - cbn [length Nat.eqb nth NumSubexp imageTag imagePtrn Nat.max seq map].
    intros [= <-]. split; [apply Trim_idem|].
    apply search_In in E as (x & Hy). apply imagePtrn_group_text in Hy.
    unfold GoStrings.Trim. now apply TrimRight_ContainsAny, TrimLeft_ContainsAny.
  - cbn. intros [= <-]. split; reflexivity.
Qed.

End ImagePath.

Lemma image_path_is_trimmed_witness :
  extractMediaPath "// ![a](  my pic.png  )" = Ok "my pic.png"
  /\ GoStrings.Trim "my pic.png" [SP; TAB] = "my pic.png".
Proof.
  split; [reflexivity|].
  apply (image_path_is_trimmed "// ![a](  my pic.png  )" "my pic.png").
  reflexivity.
Defined.

Section SnippetEdges.

Variable ReadFile : string -> result string.

Lemma afterFirst_none (p : string -> bool) (lines : list string) :
  Forall (fun line => p line = false) lines -> afterFirst p lines = [].
Proof.
  induction 1 as [|line lines Hline _ IH]; [reflexivity|].
  cbn [afterFirst]. now rewrite Hline.
Qed.

(** X17: a Hype file in which no line holds the start marker gives no error but
    the empty snippet: one newline. *)
Theorem snippet_without_start_marker (path content : string) :
  ReadFile path = Ok content ->
  Forall (fun line => isStartLine line = false) (linesOf content) ->
  getHTMLSnippet ReadFile path = Ok NL.
Proof.
  intros Hread Hnone. unfold getHTMLSnippet. rewrite Hread, snippetOf_spec.
  unfold snippetSpec, snippetBy, copyRegionBy. now rewrite afterFirst_none.
Qed.

End SnippetEdges.

Lemma snippet_without_start_marker_witness :
  getHTMLSnippet (fun _ => Ok ("<html>" +:+ NL +:+ endMarker)) "a.html" = Ok NL.
Proof.
  apply (snippet_without_start_marker
           (fun _ => Ok ("<html>" +:+ NL +:+ endMarker)) "a.html"
           ("<html>" +:+ NL +:+ endMarker)); [reflexivity|].
  repeat constructor.
Defined.

Section OutputShape.

Variable ReadFile : string -> result string.

Lemma snippetOf_ends_with_NL (content : string) :
  exists s, snippetOf content = s +:+ NL.
Proof. unfold snippetOf. eauto. Qed.

Lemma append_NL_nonempty (s : string) : s +:+ NL <> "".
Proof. now destruct s. Qed.

(** A round of the loop passes a directive and changes nothing, or
    writes something that ends with a newline. *)
Lemma convertLine_writes (l l' : locals) (line : string) (g g' : bool) :
  convertLine ReadFile l line g = (Ok l', g') ->
  (isDirective line = true /\ l' = l) \/ exists s, out l' = s +:+ NL.
Proof.
  unfold convertLine. destruct (isDirective line).
  { intros Heq; injection Heq as <- _. now left. }
  intros H. right. revert H. unfold bind.
  destruct (isInComment_total line g) as (b & g1 & ->).
  destruct b.
  - unfold commentLine.
    set (out1 := if LastLine.eqb (lastLine l) LastLine.code
                 then out l +:+ "```" +:+ NL +:+ NL else out l).
    destruct (extractMediaPath line) as [image|e]; [|discriminate].
    destruct (replaceHypeTag_cases ReadFile line)
      as [[_ ->]|(m0 & p & _ & _ & ->)].
    + rewrite andb_false_r. intros Heq; injection Heq as <- _. cbn [out].
      exists (out1 +:+ ReplaceAllString allCommentDelims line "").
      now rewrite append_assoc.
    + destruct (ReadFile p) as [content|e]; [|discriminate].
      destruct (snippetOf_ends_with_NL content) as (s & Es).
      destruct (_ && _)%bool; intros Heq; injection Heq as <- _; cbn [out].
      * exists (out1 +:+ s). now rewrite Es, append_assoc.
      * exists (out1 +:+ ReplaceAllString allCommentDelims line "").
        now rewrite append_assoc.
  - unfold codeLine.
    destruct (_ && _)%bool; intros Heq; injection Heq as <- _; cbn [out].
    + exists ((out l +:+ NL +:+ "```go" +:+ NL) +:+ line). now rewrite !append_assoc.
    + exists (out l +:+ line). now rewrite append_assoc.
Qed.

Lemma convertLine_keeps_NL (l l' : locals) (line : string) (g g' : bool) :
  (exists s, out l = s +:+ NL) ->
  convertLine ReadFile l line g = (Ok l', g') ->
  exists s, out l' = s +:+ NL.
Proof.
  intros Hl [[_ ->]|H]%convertLine_writes; assumption.
Qed.

Lemma convertLines_keeps_NL (lines : list string) (l l' : locals) (g g' : bool) :
  (exists s, out l = s +:+ NL) ->
  convertLines ReadFile l lines g = (Ok l', g') ->
  exists s, out l' = s +:+ NL.
Proof.
  revert l g; induction lines as [|line lines IH]; intros l g Hl;
    cbn [convertLines].
  - intros Heq; now injection Heq as <- _.
  - unfold bind.
    destruct (convertLine ReadFile l line g) as [[l1|e] g1] eqn:E;
      [|discriminate].
    apply IH. eapply convertLine_keeps_NL; eassumption.
Qed.

Lemma convertLines_writes (lines : list string) (l l' : locals) (g g' : bool) :
  convertLines ReadFile l lines g = (Ok l', g') ->
  (Forall (fun line => isDirective line = true) lines /\ l' = l)
  \/ exists s, out l' = s +:+ NL.
Proof.
  revert l g; induction lines as [|line lines IH]; intros l g;
    cbn [convertLines].
  - intros Heq; injection Heq as <- _. left. now split.
  - unfold bind.
    destruct (convertLine ReadFile l line g) as [[l1|e] g1] eqn:E;
      [|discriminate].
    intros H. apply convertLine_writes in E as [[Hd ->]|Hs].
    + apply IH in H as [[Hall ->]|Hs]; [left | now right].
      split; [now constructor | reflexivity].
    + right. eapply convertLines_keeps_NL; eassumption.
Qed.

(** X9: the output of [convert] ends with a newline, unless every line of the
    input is a directive: then it is empty. *)
Theorem convert_output_ends_with_newline (input out0 : string)
        (m : gset string) (g g' : bool) :
  convert ReadFile input g = (Ok (out0, m), g') ->
  (Forall (fun line => isDirective line = true) (linesOf input) /\ out0 = "")
  \/ exists s, out0 = s +:+ NL.
Proof.
  unfold convert, bind. fold (linesOf input).
  destruct (convertLines _ _ _ g) as [[l|e] g1] eqn:E; [|discriminate].
  apply convertLines_writes in E.
  destruct (LastLine.eqb (lastLine l) LastLine.code) eqn:Hc;
    intros Heq; injection Heq as <- _ _.
  - right. exists (out l +:+ NL +:+ "```"). now rewrite !append_assoc.
  - destruct E as [[Hall ->]|Hs]; [left; now split | now right].
Qed.

End OutputShape.

Lemma convert_output_ends_with_newline_witness :
  convert noFiles commentThenCode false
    = (Ok ("a" +:+ NL +:+ fenced ("x" +:+ NL), ∅), false)
  /\ exists s, "a" +:+ NL +:+ fenced ("x" +:+ NL) = s +:+ NL.
Proof.
  split; [reflexivity|].
  destruct (convert_output_ends_with_newline noFiles commentThenCode _ _ false false
              eq_refl) as [[_ H]|H]; [discriminate H | exact H].
Defined.

Section FenceBalance.

Variable ReadFile : string -> result string.

Lemma countc_app (c : ascii) (a b : string) :
  countc c (a +:+ b) = countc c a + countc c b.
Proof.
  induction a as [|d a IH]; [reflexivity|].
  rewrite append_cons. cbn [countc]. rewrite IH. lia.
Qed.

Lemma countc_drop (c : ascii) (n : nat) (s : string) :
  countc c s = 0 -> countc c (GoStrings.drop n s) = 0.
Proof.
  revert s; induction n as [|n IH]; intros [|d s]; cbn [GoStrings.drop countc];
    try easy.
  intros H. apply IH. lia.
Qed.

Lemma countc_take (c : ascii) (n : nat) (s : string) :
  countc c s = 0 -> countc c (GoStrings.take n s) = 0.
Proof.
  revert s; induction n as [|n IH]; intros [|d s]; cbn [GoStrings.take countc];
    try easy.
  intros H. rewrite IH by lia. lia.
Qed.

Lemma countc_TrimLeft (c : ascii) (s : string) (cut : list ascii) :
  countc c s = 0 -> countc c (GoStrings.TrimLeft s cut) = 0.
Proof.
  induction s as [|d s IH]; [reflexivity|]. intros H.
  cbn [GoStrings.TrimLeft]. destruct (GoStrings.memb d cut); [|exact H].
  apply IH. cbn [countc] in H. lia.
Qed.

Lemma countc_TrimRight (c : ascii) (s : string) (cut : list ascii) :
  countc c s = 0 -> countc c (GoStrings.TrimRight s cut) = 0.
Proof.
  induction s as [|d s IH]; [reflexivity|]. cbn [countc]. intros H.
  cbn [GoStrings.TrimRight]. specialize (IH ltac:(lia)).
  destruct (GoStrings.TrimRight s cut).
  - destruct (GoStrings.memb d cut); cbn [countc]; lia.
  - cbn [countc] in IH |- *. lia.
Qed.

Lemma countc_removeCR (c : ascii) (s : string) :
  countc c s = 0 -> countc c (GoStrings.ReplaceAll s (String CR "") "") = 0.
Proof.
  induction s as [|d s IH]; [reflexivity|]. cbn [countc]. intros H.
  rewrite removeCR_cons. destruct (Ascii.eqb d CR); cbn [countc];
    rewrite IH by lia; lia.
Qed.

Lemma countc_Split (c : ascii) (s : string) (sep : ascii) :
  countc c s = 0 -> Forall (fun piece => countc c piece = 0) (GoStrings.Split s sep).
Proof.
  induction s as [|d s IH]; [now repeat constructor|]. cbn [countc]. intros H.
  specialize (IH ltac:(lia)). cbn [GoStrings.Split].
  destruct (Ascii.eqb d sep); [now constructor|].
  destruct (GoStrings.Split s sep) as [|piece pieces].
  - repeat constructor. cbn [countc]. lia.
  - inversion IH; subst. constructor; [cbn [countc]; lia | assumption].
Qed.

(** A replacement by the empty text adds no character. *)
Lemma countc_replaceAll (c : ascii) (r : regex) (src : string) (fuel : nat) :
  countc c src = 0 ->
  forall searchPos lastMatchEnd buf,
    countc c buf = 0 ->
    countc c (replaceAll r src "" fuel searchPos lastMatchEnd buf) = 0.
Proof.
  intros Hsrc. induction fuel as [|f IH]; intros sp lme buf Hbuf;
    cbn [replaceAll].
  - rewrite countc_app, Hbuf. now apply countc_drop.
  - destruct (sp <=? String.length src)%nat;
      [|rewrite countc_app, Hbuf; now apply countc_drop].
    destruct (search r sp (GoStrings.drop sp src)) as [[a0 y]|];
      [|rewrite countc_app, Hbuf; now apply countc_drop].
    apply IH.
    assert (H1 : countc c (buf +:+ GoStrings.slice src lme a0) = 0).
    { rewrite countc_app, Hbuf. unfold GoStrings.slice.
      now apply countc_take, countc_drop. }
    destruct (_ || _)%bool; [|exact H1].
    now rewrite countc_app, H1.
Qed.

Lemma countc_snippetLoop (c : ascii) (lines : list string) :
  Ascii.eqb LF c = false ->
  Forall (fun line => countc c line = 0) lines ->
  forall inSnippet acc,
    countc c acc = 0 -> countc c (snippetLoop lines inSnippet acc) = 0.
Proof.
  intros Hc. induction 1 as [|line lines Hline _ IH]; intros b acc Hacc;
    cbn [snippetLoop]; [assumption|].
  destruct (0 <=? GoStrings.Index line startMarker)%Z; [now apply IH|].
  destruct ((0 <=? GoStrings.Index line endMarker)%Z && b)%bool; [assumption|].
  apply IH.
  destruct (if (0 <=? GoStrings.Index line endMarker)%Z then false else b);
    [|assumption].
  rewrite !countc_app, Hacc. unfold GoStrings.Trim.
  rewrite countc_TrimRight by now apply countc_TrimLeft.
  cbn [countc NL]. now rewrite Hc.
Qed.

Lemma countc_snippetOf (c : ascii) (content : string) :
  Ascii.eqb LF c = false ->
  countc c content = 0 -> countc c (snippetOf content) = 0.
Proof.
  intros Hc Hs. unfold snippetOf. rewrite countc_app.
  rewrite countc_snippetLoop; [cbn [countc NL]; now rewrite Hc | assumption | | reflexivity].
  now apply countc_Split, countc_removeCR.
Qed.

(** Evaluate the counts of the fence texts. *)
Ltac count_closed :=
  repeat match goal with
         | |- context [countc BACKTICK (String ?a ?b)] =>
             let v := eval vm_compute in (countc BACKTICK (String a b)) in
             change (countc BACKTICK (String a b)) with v
         | |- context [countc BACKTICK NL] =>
             change (countc BACKTICK NL) with 0
         end.

Hypothesis files_without_backquote :
  forall path content, ReadFile path = Ok content -> countc BACKTICK content = 0.

(** With [k] code blocks closed so far, the output has [6 * k] back
    quotes, and three more while a code block is open. *)
Lemma convertLine_fences (l l' : locals) (line : string) (g g' : bool) :
  countc BACKTICK line = 0 ->
  (exists k, countc BACKTICK (out l)
             = 6 * k + if LastLine.eqb (lastLine l) LastLine.code then 3 else 0) ->
  convertLine ReadFile l line g = (Ok l', g') ->
  exists k, countc BACKTICK (out l')
            = 6 * k + if LastLine.eqb (lastLine l') LastLine.code then 3 else 0.
Proof.
  intros Hline (k & Hk). unfold convertLine. destruct (isDirective line).
  { intros Heq; injection Heq as <- _. eauto. }
  unfold bind. destruct (isInComment_total line g) as (b & g1 & ->).
  destruct b.
  - unfold commentLine.
    set (out1 := if LastLine.eqb (lastLine l) LastLine.code
                 then out l +:+ "```" +:+ NL +:+ NL else out l).
    assert (H1 : exists k1, countc BACKTICK out1 = 6 * k1).
    { subst out1.
      destruct (LastLine.eqb (lastLine l) LastLine.code).
      - exists (S k). rewrite !countc_app, Hk. count_closed. lia.
      - exists k. lia. }
    destruct H1 as (k1 & Hk1).
    assert (Hstrip : countc BACKTICK
                       (out1 +:+ ReplaceAllString allCommentDelims line "" +:+ NL)
                     = 6 * k1 + 0).
    { rewrite !countc_app, Hk1. unfold ReplaceAllString.
      rewrite countc_replaceAll by (assumption || reflexivity).
      count_closed. lia. }
    destruct (extractMediaPath line) as [image|e]; [|discriminate].
    destruct (replaceHypeTag_cases ReadFile line)
      as [[_ ->]|(m0 & p & _ & _ & ->)].
    + rewrite andb_false_r. intros Heq; injection Heq as <- _.
      cbn [out lastLine LastLine.eqb]. eauto.
    + destruct (ReadFile p) as [content|e] eqn:Er; [|discriminate].
      destruct (_ && _)%bool; intros Heq; injection Heq as <- _;
        cbn [out lastLine LastLine.eqb]; [|eauto].
      exists k1. rewrite countc_app, Hk1.
      rewrite countc_snippetOf
        by (reflexivity || eapply files_without_backquote, Er). lia.
  - unfold codeLine.
    destruct (LastLine.eqb (lastLine l) LastLine.comment
              && (0 <? String.length line)%nat)%bool eqn:E;
      intros Heq; injection Heq as <- _; cbn [out lastLine LastLine.eqb].
    + apply andb_true_iff in E as [E _].
      destruct (lastLine l); try discriminate. cbn [LastLine.eqb] in Hk.
      exists k. rewrite !countc_app, Hk, Hline.
      count_closed. lia.
    + exists k. rewrite !countc_app, Hk, Hline. count_closed. lia.
Qed.

Lemma convertLines_fences (lines : list string) (l l' : locals) (g g' : bool) :
  Forall (fun line => countc BACKTICK line = 0) lines ->
  (exists k, countc BACKTICK (out l)
             = 6 * k + if LastLine.eqb (lastLine l) LastLine.code then 3 else 0) ->
  convertLines ReadFile l lines g = (Ok l', g') ->
  exists k, countc BACKTICK (out l')
            = 6 * k + if LastLine.eqb (lastLine l') LastLine.code then 3 else 0.
Proof.
  intros Hall. revert l g.
  induction Hall as [|line lines Hline _ IH]; intros l g Hl; cbn [convertLines].
  - intros Heq; now injection Heq as <- _.
  - unfold bind.
    destruct (convertLine ReadFile l line g) as [[l1|e] g1] eqn:E;
      [|discriminate].
    apply IH. eapply convertLine_fences; eassumption.
Qed.

(** X10: fences come in pairs.  When neither the input nor the Hype files hold
    a back quote, the back quotes of the output are those of the fences,
    three each, and their number is a multiple of six: every opening fence
    has its closing fence. *)
Theorem fences_are_paired (input out0 : string) (m : gset string) (g g' : bool) :
  countc BACKTICK input = 0 ->
  convert ReadFile input g = (Ok (out0, m), g') ->
  exists k, countc BACKTICK out0 = 6 * k.
Proof.
  intros Hin. unfold convert, bind.
  destruct (convertLines _ _ _ g) as [[l|e] g1] eqn:E; [|discriminate].
  apply convertLines_fences in E as (k & Hk).
  - destruct (LastLine.eqb (lastLine l) LastLine.code);
      intros Heq; injection Heq as <- _ _.
    + exists (S k). rewrite !countc_app, Hk. count_closed. lia.
    + exists k. lia.
  - now apply countc_Split, countc_removeCR.
  - exists 0. reflexivity.
Qed.

End FenceBalance.

Lemma fences_are_paired_witness :
  countc BACKTICK ("// a" +:+ NL +:+ "x" +:+ NL +:+ "// b" +:+ NL +:+ "y") = 0
  /\ exists k,
       countc BACKTICK
         ("a" +:+ NL +:+ NL +:+ "```go" +:+ NL +:+ "x" +:+ NL +:+ "```" +:+ NL +:+ NL
            +:+ "b" +:+ NL +:+ fenced ("y" +:+ NL)) = 6 * k.
Proof.
  split; [reflexivity|].
  apply (fences_are_paired noFiles ltac:(discriminate)
           ("// a" +:+ NL +:+ "x" +:+ NL +:+ "// b" +:+ NL +:+ "y") _ ∅ false false);
    reflexivity.
Defined.

Section BlockBoundaries.

Variable ReadFile : string -> result string.

Lemma not_directive (line : string) :
  startsWith "//" line = false -> isDirective line = false.
Proof.
  intros H1. rewrite isDirective_prefix.
  destruct (GoStrings.HasPrefix line "//go:") eqn:E; [|reflexivity].
  apply HasPrefix_two in E as [t ->]. unfold startsWith in H1.
  cbn [GoStrings.TrimLeft GoStrings.memb existsb wsChars] in H1.
  change (GoStrings.HasPrefix t "" = false) in H1.
  now rewrite HasPrefix_nil in H1.
Qed.

(** The opener with one space after it, at the beginning of the text. *)
Lemma search_delims_opener (body : string) :
  search allCommentDelims 0 (String "/" (String "*" (String " " body)))
  = Some (0, Cursor 3 body []).
Proof.
  cbn [search]. unfold allCommentDelims at 1, commentPtrn at 1, commentStartPtrn at 1.
  rewrite !exec_Alt, !exec_Bol_start.
  rewrite exec_ws_lit_none by reflexivity.
  reflexivity.
Qed.

Lemma strip_block_opener (body : string) :
  GoStrings.Contains body "*/" = false ->
  ReplaceAllString allCommentDelims (String "/" (String "*" (String " " body))) ""
  = body.
Proof.
  intros Hb. unfold ReplaceAllString.
  cbn [String.length replaceAll Nat.leb GoStrings.drop].
  rewrite search_delims_opener.
  cbn [pos Nat.ltb Nat.leb orb Nat.add GoStrings.slice GoStrings.take
       Nat.sub String.append replaceAll GoStrings.drop].
  rewrite (search_delims_later _ _ Hb). reflexivity.
Qed.

(** X4: the first line of a block comment, [/* body]: the opener and the one
    space after it are taken off, the rest is written with a newline, and
    the flag is on after the line. *)
Theorem block_opener_line (l : locals) (body : string) (g : bool) :
  GoStrings.Contains body "*/" = false ->
  GoStrings.Contains body "![" = false ->
  GoStrings.Contains body "HYPE[" = false ->
  convertLine ReadFile l ("/* " +:+ body) g
  = (Ok (Locals LastLine.comment
           ((if LastLine.eqb (lastLine l) LastLine.code
             then out l +:+ "```" +:+ NL +:+ NL else out l) +:+ body +:+ NL)
           (media l)), true).
Proof.
  intros Hstar Hbang Hhype. cbn [String.append].
  set (line := String "/" (String "*" (String " " body))).
  assert (Hbang' : GoStrings.Contains line "![" = false).
  { unfold line. cbn [GoStrings.Contains]. now rewrite Hbang. }
  assert (Hhype' : GoStrings.Contains line "HYPE[" = false).
  { unfold line. cbn [GoStrings.Contains]. now rewrite Hhype. }
  unfold convertLine, bind, isInComment.
  rewrite (not_directive line) by reflexivity.
  rewrite comment_pattern, commentStart_pattern.
  change (startsWith "//" line) with false. change (startsWith "/*" line) with true.
  cbv iota.
  unfold commentLine, extractMediaPath, replaceHypeTag, FindStringSubmatch.
  unfold imageTag, imagePtrn, hypeTag, hypePtrn.
  rewrite !search_needs_lit by assumption.
  cbn [length Nat.eqb GoStrings.Trim GoStrings.TrimLeft GoStrings.TrimRight
       nonempty String.eqb negb].
  rewrite andb_false_r. unfold line. now rewrite strip_block_opener.
Qed.

End BlockBoundaries.

Lemma block_opener_line_witness :
  GoStrings.Contains "Usage" "*/" = false
  /\ convertLine noFiles (Locals LastLine.code "x" ∅) "/* Usage" false
     = (Ok (Locals LastLine.comment
              ("x" +:+ "```" +:+ NL +:+ NL +:+ "Usage" +:+ NL) ∅), true).
Proof.
  split; [reflexivity|].
  apply (block_opener_line noFiles (Locals LastLine.code "x" ∅) "Usage" false);
    reflexivity.
Defined.

Section BlockCloser.

Variable ReadFile : string -> result string.

Lemma length_append (a b : string) :
  String.length (a +:+ b) = String.length a + String.length b.
Proof. induction a as [|x a IH]; cbn; [reflexivity | now rewrite IH]. Qed.

Lemma take_append (a b : string) : GoStrings.take (String.length a) (a +:+ b) = a.
Proof. induction a as [|x a IH]; cbn; [now destruct b | now rewrite IH]. Qed.

Lemma drop_append (n : nat) (a b : string) :
  GoStrings.drop (n + String.length a) (a +:+ b) = GoStrings.drop n b.
Proof.
  induction a as [|x a IH]; cbn [String.length String.append].
  - now rewrite Nat.add_0_r.
  - rewrite Nat.add_succ_r. cbn [GoStrings.drop]. exact IH.
Qed.

(** In front of the closer [ */], a text without [*/] gives no closer of
    its own. *)
Lemma no_closer_before (t : string) :
  GoStrings.Contains t "*/" = false ->
  GoStrings.HasPrefix (t +:+ " */") "*/" = false.
Proof.
  destruct t as [|c t]; [reflexivity|]. intros H%Contains_here.
  rewrite append_cons. rewrite !HasPrefix_cons in *.
  destruct (Ascii.eqb c "*"); [|reflexivity]. cbn [andb] in *.
  destruct t as [|d t]; [reflexivity|].
  rewrite append_cons. rewrite !HasPrefix_cons in *.
  destruct (Ascii.eqb d "/"); [|reflexivity]. cbn [andb] in H.
  now rewrite HasPrefix_nil in H.
Qed.

Lemma search_closer (body : string) (p : nat) :
  GoStrings.Contains body "*/" = false ->
  search commentEndPtrn p (body +:+ " */")
  = Some (p + String.length body, Cursor (3 + (p + String.length body)) "" []).
Proof.
  revert p; induction body as [|c body IH]; intros p Hb.
  - cbn [String.append String.length search]. rewrite Nat.add_0_r.
    rewrite exec_commentEnd, !exec_closer_here. cbn.
    now replace (p + 1 + 2 + 0) with (S (S (S p))) by lia.
  - apply Contains_tail in Hb as Ht.
    rewrite append_cons. cbn [search String.length].
    rewrite exec_commentEnd, !exec_closer_here.
    rewrite <- append_cons.
    rewrite (no_closer_before _ Hb), (no_closer_before _ Ht).
    cbn [andb app]. destruct (GoStrings.memb c wsChars); cbn [app];
      rewrite IH by assumption;
      now replace (S p + String.length body) with (p + S (String.length body)) by lia.
Qed.

Lemma search_delims_later_closer (s : string) (p : nat) :
  search allCommentDelims (S p) s = search commentEndPtrn (S p) s.
Proof.
  revert p; induction s as [|c s IH]; intros p; cbn [search];
    unfold allCommentDelims at 1, commentPtrn, commentStartPtrn;
    rewrite !exec_Alt, !exec_Bol_later; cbn [app];
    destruct (exec commentEndPtrn _); try reflexivity.
  apply IH.
Qed.

Lemma search_delims_closer (s : string) :
  startsWith "//" s = false -> startsWith "/*" s = false ->
  search allCommentDelims 0 s = search commentEndPtrn 0 s.
Proof.
  unfold startsWith. intros H1 H2.
  assert (E : exec allCommentDelims (Cursor 0 s [])
              = exec commentEndPtrn (Cursor 0 s [])).
  { unfold allCommentDelims, commentPtrn, commentStartPtrn.
    rewrite !exec_Alt, !exec_Bol_start.
    now rewrite !exec_ws_lit_none by (reflexivity || assumption). }
  destruct s as [|c s]; cbn [search]; rewrite E;
    destruct (exec commentEndPtrn _); try reflexivity.
  apply search_delims_later_closer.
Qed.

Lemma strip_block_closer (body : string) :
  startsWith "//" (body +:+ " */") = false ->
  startsWith "/*" (body +:+ " */") = false ->
  GoStrings.Contains body "*/" = false ->
  ReplaceAllString allCommentDelims (body +:+ " */") "" = body.
Proof.
  intros H1 H2 Hb. unfold ReplaceAllString.
  set (src := body +:+ " */").
  assert (Hlen : String.length src = S (S (S (String.length body)))).
  { unfold src. rewrite length_append. cbn. lia. }
  rewrite Hlen. cbn [replaceAll Nat.leb GoStrings.drop].
  rewrite (search_delims_closer src H1 H2). unfold src at 1.
  rewrite (search_closer body 0 Hb). cbn [pos Nat.add].
  cbn [Nat.ltb Nat.leb orb]. rewrite Hlen. cbn [Nat.ltb Nat.leb Nat.add].
  cbn [replaceAll Nat.leb].
  replace (String.length body <=? String.length body)%nat with true
    by (symmetry; apply Nat.leb_refl).
  replace (GoStrings.drop (S (S (S (String.length body)))) src) with ""
    by (unfold src; symmetry; exact (drop_append 3 body " */")).
  cbn [search]. unfold allCommentDelims at 1, commentPtrn, commentStartPtrn.
  rewrite !exec_Alt, !exec_Bol_later.
  change (exec commentEndPtrn (Cursor _ "" [])) with (@nil cursor). cbn [app].
  unfold GoStrings.slice. cbn [GoStrings.drop String.append].
  rewrite Nat.sub_0_r. unfold src. rewrite take_append.
  now rewrite !append_nil_r.
Qed.

Lemma closesBlock_closer (body : string) : closesBlock (body +:+ " */") = true.
Proof.
  induction body as [|c body IH]; [reflexivity|].
  rewrite append_cons, closesBlock_cons, IH. apply orb_true_r.
Qed.

(** X6: the last line of a block comment, [body */]: the closer and the one
    space in front of it are taken off, the rest is written with a
    newline, and the flag is off after the line. *)
Theorem block_closer_line (l : locals) (body : string) (g : bool) :
  startsWith "//" (body +:+ " */") = false ->
  startsWith "/*" (body +:+ " */") = false ->
  GoStrings.Contains body "*/" = false ->
  GoStrings.Contains (body +:+ " */") "![" = false ->
  GoStrings.Contains (body +:+ " */") "HYPE[" = false ->
  convertLine ReadFile l (body +:+ " */") g
  = (Ok (Locals LastLine.comment
           ((if LastLine.eqb (lastLine l) LastLine.code
             then out l +:+ "```" +:+ NL +:+ NL else out l) +:+ body +:+ NL)
           (media l)), false).
Proof.
  intros H1 H2 Hstar Hbang Hhype.
  unfold convertLine, bind, isInComment.
  rewrite (not_directive _ H1).
  rewrite comment_pattern, commentStart_pattern, commentEnd_pattern.
  rewrite H1, H2, closesBlock_closer.
  unfold commentLine, extractMediaPath, replaceHypeTag, FindStringSubmatch.
  unfold imageTag, imagePtrn, hypeTag, hypePtrn.
  rewrite !search_needs_lit by assumption.
  cbn [length Nat.eqb GoStrings.Trim GoStrings.TrimLeft GoStrings.TrimRight
       nonempty String.eqb negb].
  rewrite andb_false_r. now rewrite strip_block_closer.
Qed.

End BlockCloser.

Lemma block_closer_line_witness :
  startsWith "//" ("See LICENSE.txt" +:+ " */") = false
  /\ convertLine noFiles (Locals LastLine.comment "a" ∅) "See LICENSE.txt */" true
     = (Ok (Locals LastLine.comment ("a" +:+ "See LICENSE.txt" +:+ NL) ∅), false).
Proof.
  split; [reflexivity|].
  apply (block_closer_line noFiles (Locals LastLine.comment "a" ∅)
           "See LICENSE.txt" true); reflexivity.
Defined.

Section MediaProvenance.

Variable ReadFile : string -> result string.

(** What a round of the loop adds to the media set comes from a tag of
    the line. *)
Lemma convertLine_media (l l' : locals) (line p : string) (g g' : bool) :
  convertLine ReadFile l line g = (Ok l', g') ->
  p ∈ media l' ->
  p ∈ media l
  \/ extractMediaPath line = Ok p
  \/ exists m0 path,
       FindStringSubmatch hypeTag line = [m0; path]
       /\ p = GoStrings.ReplaceAll path ".html" ".hyperesources".
Proof.
  unfold convertLine. destruct (isDirective line).
  { intros Heq; injection Heq as <- _. now left. }
  unfold bind. destruct (isInComment_total line g) as (b & g1 & ->).
  destruct b.
  - unfold commentLine.
    destruct (extractMediaPath line) as [image|e]; [|discriminate].
    assert (H1 : p ∈ (if nonempty image then {[image]} ∪ media l else media l) ->
                 p ∈ media l \/ Ok image = Ok p).
    { destruct (nonempty image); [|now left].
      intros [->%elem_of_singleton|H]%elem_of_union; auto. }
    destruct (replaceHypeTag_cases ReadFile line)
      as [[_ ->]|(m0 & path & E & _ & ->)].
    + rewrite andb_false_r. intros Heq; injection Heq as <- _. cbn [media].
      intros [H|H]%H1; auto.
    + destruct (ReadFile path) as [content|e]; [|discriminate].
      destruct (_ && _)%bool; intros Heq; injection Heq as <- _; cbn [media].
      * intros [->%elem_of_singleton|[H|H]%H1]%elem_of_union; eauto 6.
      * intros [H|H]%H1; auto.
  - unfold codeLine.
    destruct (_ && _)%bool; intros Heq; injection Heq as <- _; now left.
Qed.

Lemma convertLines_media (lines : list string) (l l' : locals) (p : string)
      (g g' : bool) :
  convertLines ReadFile l lines g = (Ok l', g') ->
  p ∈ media l' ->
  p ∈ media l
  \/ exists line,
       In line lines
       /\ (extractMediaPath line = Ok p
           \/ exists m0 path,
                FindStringSubmatch hypeTag line = [m0; path]
                /\ p = GoStrings.ReplaceAll path ".html" ".hyperesources").
Proof.
  revert l g; induction lines as [|line lines IH]; intros l g;
    cbn [convertLines].
  - intros Heq; injection Heq as <- _. now left.
  - unfold bind.
    destruct (convertLine ReadFile l line g) as [[l1|e] g1] eqn:E;
      [|discriminate].
    intros H Hp. destruct (IH _ _ H Hp) as [H1|(line' & Hin & Ht)].
    + destruct (convertLine_media _ _ _ _ _ _ E H1) as [?|Ht]; [now left|].
      right. exists line. split; [now left | exact Ht].
    + right. exists line'. split; [now right | exact Ht].
Qed.

(** X13: every path of the media set is the path of an image tag of some line
    of the input, or the resources directory of a Hype tag of some line. *)
Theorem media_paths_come_from_tags (input out0 p : string) (m : gset string)
        (g g' : bool) :
  convert ReadFile input g = (Ok (out0, m), g') ->
  p ∈ m ->
  exists line,
    In line (linesOf input)
    /\ (extractMediaPath line = Ok p
        \/ exists m0 path,
             FindStringSubmatch hypeTag line = [m0; path]
             /\ p = GoStrings.ReplaceAll path ".html" ".hyperesources").
Proof.
  unfold convert, bind. fold (linesOf input).
  destruct (convertLines _ _ _ g) as [[l|e] g1] eqn:E; [|discriminate].
  intros H Hp.
  assert (Hm : p ∈ media l)
    by (destruct (LastLine.eqb _ _); injection H as _ <- _; exact Hp).
  destruct (convertLines_media _ _ _ _ _ _ E Hm) as [H0|H1]; [|exact H1].
  cbn [media] in H0. now apply not_elem_of_empty in H0.
Qed.

End MediaProvenance.

Lemma media_paths_come_from_tags_witness :
  convert noFiles imageLine false = (Ok (imageTagText +:+ NL, {["pic.png"]}), false)
  /\ exists line, In line (linesOf imageLine).
Proof.
  split; [vm_compute; reflexivity|].
  destruct (media_paths_come_from_tags noFiles imageLine (imageTagText +:+ NL)
              "pic.png" {["pic.png"]} false false)
    as (line & Hin & _).
  - vm_compute. reflexivity.
  - now apply elem_of_singleton.
  - now exists line.
Defined.

Lemma media_no_empty_path_witness :
  convert noFiles "// ![a]( )" false = (Ok ("![a]( )" +:+ NL, ∅), false)
  /\ ("" ∉ (∅ : gset string)) /\ NoDup (elements (∅ : gset string)).
Proof.
  split; [vm_compute; reflexivity|].
  apply (media_no_empty_path noFiles "// ![a]( )" ("![a]( )" +:+ NL) ∅ false false).
  vm_compute. reflexivity.
Defined.
